(** * Mini support ticketing system: a shallow embedding of [app.py],
    [models.py] and [seed.py], and the properties of the request
    handlers.

    Layout:
    - [Py]: the Python values the handlers manipulate (strings as
      sequences of code points, the values [request.get_json()] can
      return, truthiness, [str.strip], exceptions as an error monad);
    - [Models]: the [Ticket] row of [models.py], the table as a finite
      map from primary keys to rows, the clock and the commit;
    - [App]: the helpers and route handlers of [app.py], as functions
      from session, request and table to response and table;
    - [Seed]: the sample rows of [seed.py];
    - [Pages]: the page routes and the error handlers of [app.py];
    - [Routes]: the API routes from the request as Flask hands it over,
      with the two steps that come before the handler proper and can
      raise, [request.get_json()] and [Ticket.query.get_or_404];
    - the vocabulary of the specification (requests, transitions,
      reachable tables, the invariant);
    - the properties, handler by handler.

    Out of the model: HTML pages, cookie signing, the grammar of JSON
    (a body is a document, or is not one), and concurrent requests. *)

From Stdlib Require Import ZArith NArith String Ascii List Floats Lia.
From stdpp Require Import gmap list sorting.

Set Warnings "-register-all".

Local Open Scope Z_scope.

(** ** Python values *)
Module Py.

(** A Python [str] is a sequence of Unicode code points; [len] counts
    code points. *)
Abbreviation pystr := (list N).

(** A string literal of the source (all of them are ASCII). *)
Definition lit (s : string) : list N :=
  map N_of_ascii (list_ascii_of_string s).

(** [str.isspace] on one code point: the table of CPython's
    [_PyUnicode_IsWhitespace]. *)
Definition isspace (c : N) : bool :=
  ((9 <=? c) && (c <=? 13) ||
   (28 <=? c) && (c <=? 32) ||
   (c =? 133) || (c =? 160) || (c =? 5760) ||
   (8192 <=? c) && (c <=? 8202) ||
   (c =? 8232) || (c =? 8233) || (c =? 8239) || (c =? 8287) ||
   (c =? 12288))%N.

Fixpoint lstrip (s : list N) : list N :=
  match s with
  | c :: s' => if isspace c then lstrip s' else s
  | [] => []
  end.

Definition rstrip (s : list N) : list N := rev (lstrip (rev s)).

(** [s.strip()] *)
Definition strip (s : list N) : list N := rstrip (lstrip s).

(** [len(s)] *)
Definition len (s : list N) : Z := Z.of_nat (length s).

(** [sep.join(parts)] *)
Fixpoint join (sep : list N) (parts : list (list N)) : list N :=
  match parts with
  | [] => []
  | [p] => p
  | p :: ps => p ++ sep ++ join sep ps
  end.

Fixpoint startswith (s p : list N) : bool :=
  match p, s with
  | [], _ => true
  | _ :: _, [] => false
  | a :: p', b :: s' => (a =? b)%N && startswith s' p'
  end.

(** [p in s] for two strings: substring test. *)
Fixpoint contains (s p : list N) : bool :=
  startswith s p ||
  match s with
  | [] => false
  | _ :: s' => contains s' p
  end.

(** What [request.get_json()] can return: the image of a JSON document
    under [json.loads], or [None]. *)
Inductive pyval : Type :=
| PNone
| PBool (b : bool)
| PInt (z : Z)
| PFloat (f : float)
| PStr (s : list N)
| PList (l : list pyval)
| PDict (d : gmap (list N) pyval).

(** [bool(v)], as used by [if not v] and [if v]. *)
Definition truthy (v : pyval) : bool :=
  match v with
  | PNone => false
  | PBool b => b
  | PInt z => negb (z =? 0)
  | PFloat f => negb (PrimFloat.eqb f 0%float)
  | PStr s => negb (Nat.eqb (length s) 0)
  | PList l => negb (Nat.eqb (length l) 0)
  | PDict d => negb (Nat.eqb (size d) 0)
  end.

(** [v == s] for a string [s]: only a [str] compares equal to a [str]. *)
Definition eq_str (v : pyval) (s : list N) : bool :=
  match v with
  | PStr s' => bool_decide (s' = s)
  | _ => false
  end.

(** [v in l] for a list [l] of strings. *)
Definition in_strs (v : pyval) (l : list (list N)) : bool :=
  existsb (eq_str v) l.

(** Exceptions the handlers can meet. *)
Inductive exn : Type :=
| AttributeError
| TypeError
| KeyError
| SQLAlchemyError.

Inductive result (A : Type) : Type :=
| Ok (a : A)
| Raise (e : exn).
Arguments Ok {A} a.
Arguments Raise {A} e.

(** The error monad, with stdpp's [x ← m; k] notation. *)
#[export] Instance result_ret : MRet result := fun A a => Ok a.
#[export] Instance result_bind : MBind result := fun A B k m =>
  match m with
  | Ok a => k a
  | Raise e => Raise e
  end.

(** [data.get(key, default)]: only a [dict] has the method. *)
Definition get (data : pyval) (key : list N) (dflt : pyval) : result pyval :=
  match data with
  | PDict d => Ok (default dflt (d !! key))
  | _ => Raise AttributeError
  end.

(** [v.strip()]: only a [str] has the method. *)
Definition strip_method (v : pyval) : result (list N) :=
  match v with
  | PStr s => Ok (strip s)
  | _ => Raise AttributeError
  end.

(** [key in data] for a string [key]. *)
Definition py_in (key : list N) (data : pyval) : result bool :=
  match data with
  | PDict d => Ok (bool_decide (is_Some (d !! key)))
  | PList l => Ok (existsb (fun v => eq_str v key) l)
  | PStr s => Ok (contains s key)
  | PNone | PBool _ | PInt _ | PFloat _ => Raise TypeError
  end.

(** [data[key]] for a string [key]. *)
Definition getitem (data : pyval) (key : list N) : result pyval :=
  match data with
  | PDict d =>
      match d !! key with
      | Some v => Ok v
      | None => Raise KeyError
      end
  | _ => Raise TypeError
  end.

End Py.

Import Py.

(** ** models.py *)
Module Models.

(** [datetime] values; only their presence and identity matter here. *)
Definition datetime : Type := Z.

(** One row of the [Ticket] table. The primary key [id] is the key under
    which the row is stored in the table. *)
Record Ticket : Type := mkTicket {
  title : pystr;
  description : pystr;
  priority : pystr;
  status : pystr;
  reporter_name : pystr;
  assigned_admin : option pystr;
  created_at : option datetime;
  updated_at : option datetime
}.

Definition valid_statuses : list pystr :=
  [lit "open"; lit "in_progress"; lit "closed"].

Definition valid_priorities : list pystr :=
  [lit "low"; lit "medium"; lit "high"].

(** The dictionary built by [Ticket.to_dict]; a timestamp is kept as the
    value [isoformat] is applied to. *)
Record TicketDict : Type := mkTicketDict {
  d_id : Z;
  d_title : pystr;
  d_description : pystr;
  d_priority : pystr;
  d_status : pystr;
  d_reporter_name : pystr;
  d_assigned_admin : option pystr;
  d_created_at : option datetime;
  d_updated_at : option datetime
}.

Definition to_dict (id : Z) (t : Ticket) : TicketDict :=
  {| d_id := id;
     d_title := title t;
     d_description := description t;
     d_priority := priority t;
     d_status := status t;
     d_reporter_name := reporter_name t;
     d_assigned_admin := assigned_admin t;
     d_created_at := created_at t;
     d_updated_at := updated_at t |}.

(** The primary key SQLite gives a new row: one more than the largest
    key in use, 1 in an empty table. *)
Definition next_id (db : gmap Z Ticket) : Z :=
  1 + foldr Z.max 0 (map fst (map_to_list db)).

(** What the request sees of its environment: the readings of
    [datetime.utcnow] it takes, in order, and whether
    [db.session.commit()] goes through. *)
Record Env : Type := mkEnv {
  utcnow : nat -> datetime;
  commit_ok : bool
}.

(** [db.session.commit()] of a unit of work whose effect on the table is
    [db']. *)
Definition commit (env : Env) (db' : gmap Z Ticket) : result (gmap Z Ticket) :=
  if commit_ok env then Ok db' else Raise SQLAlchemyError.

(** [Ticket(title=..., description=..., priority=..., reporter_name=...)]
    at insertion: the column defaults fill [status], [created_at] and
    [updated_at]; [assigned_admin] is nullable and has no default. *)
Definition new_ticket (env : Env) (t d p r : pystr) : Ticket :=
  {| title := t;
     description := d;
     priority := p;
     status := lit "open";
     reporter_name := r;
     assigned_admin := None;
     created_at := Some (utcnow env 0%nat);
     updated_at := Some (utcnow env 1%nat) |}.

End Models.

Import Models.

(** ** app.py *)
Module App.

(** Hardcoded users *)
Definition REPORTERS : list pystr := [lit "Alice"; lit "Bob"].
Definition ADMINS : list pystr := [lit "Admin1"; lit "Admin2"].

(** The part of the Flask session the application uses: the two keys it
    stores, and the messages queued by [flash] (message, category). *)
Record Session : Type := mkSession {
  user_name : option pystr;
  user_role : option pystr;
  flashes : list (pystr * pystr)
}.

Definition empty_session : Session :=
  {| user_name := None; user_role := None; flashes := [] |}.

Record User : Type := mkUser { name : pystr; role : pystr }.

Definition current_user (session : Session) : User :=
  {| name := default (lit "Alice") (user_name session);
     role := default (lit "Reporter") (user_role session) |}.

Definition is_admin (session : Session) : bool :=
  bool_decide (role (current_user session) = lit "Admin").

Definition is_reporter (session : Session) : bool :=
  bool_decide (role (current_user session) = lit "Reporter").

Definition title_required : pystr := lit "Title is required".
Definition title_length : pystr :=
  lit "Title must be between 3 and 120 characters".
Definition description_required : pystr := lit "Description is required".
Definition description_length : pystr :=
  lit "Description must be between 1 and 1000 characters".
Definition priority_invalid : pystr :=
  lit "Priority must be one of: " ++ join (lit ", ") valid_priorities.

Definition validate_ticket_data (data : pyval) : result (list pystr) :=
  let errors := [] in
  (* Title validation *)
  v ← get data (lit "title") (PStr (lit ""));
  title ← strip_method v;
  let errors :=
    if negb (truthy (PStr title)) then errors ++ [title_required]
    else if (len title <? 3) || (len title >? 120)
         then errors ++ [title_length]
         else errors in
  (* Description validation *)
  v ← get data (lit "description") (PStr (lit ""));
  description ← strip_method v;
  let errors :=
    if negb (truthy (PStr description)) then errors ++ [description_required]
    else if (len description <? 1) || (len description >? 1000)
         then errors ++ [description_length]
         else errors in
  (* Priority validation *)
  priority ← get data (lit "priority") (PStr (lit ""));
  let errors :=
    if negb (in_strs priority valid_priorities)
    then errors ++ [priority_invalid]
    else errors in
  Ok errors.

(** [request.form.get] yields [None] for a missing field. *)
Definition opt_eq (o : option pystr) (s : pystr) : bool :=
  bool_decide (o = Some s).

Definition opt_in (o : option pystr) (l : list pystr) : bool :=
  existsb (opt_eq o) l.

(** [POST /set_role]; the response is always a redirect to the index
    page, so only the session is returned. *)
Definition set_role (form_user_name form_user_role : option pystr)
    (session : Session) : Session :=
  (* Validate the combination *)
  if opt_eq form_user_role (lit "Reporter") && opt_in form_user_name REPORTERS
  then {| user_name := form_user_name;
          user_role := Some (lit "Reporter");
          flashes := flashes session |}
  else if opt_eq form_user_role (lit "Admin") && opt_in form_user_name ADMINS
  then {| user_name := form_user_name;
          user_role := Some (lit "Admin");
          flashes := flashes session |}
  else
    (* If invalid combination, set to a valid default *)
    if opt_eq form_user_role (lit "Admin")
    then {| user_name := Some (lit "Admin1");
            user_role := Some (lit "Admin");
            flashes := flashes session |}
    else if opt_eq form_user_role (lit "Reporter")
    then {| user_name := Some (lit "Alice");
            user_role := Some (lit "Reporter");
            flashes := flashes session |}
    else {| user_name := user_name session;
            user_role := user_role session;
            flashes := flashes session ++
                       [(lit "Invalid user or role", lit "error")] |}.

(** JSON bodies of the API responses. *)
Inductive Body : Type :=
| JErrors (errors : list pystr)      (* {'errors': [...]} *)
| JMessage (message : pystr)         (* {'message': ...} *)
| JTicket (t : TicketDict)           (* ticket.to_dict() *)
| JTickets (l : list TicketDict).    (* [ticket.to_dict() for ...] *)

(** A response: body and HTTP status code. *)
Definition Response : Type := Body * Z.

(** Error handlers, on an [/api/] path. *)
Definition not_found : Response :=
  (JMessage (lit "Resource not found"), 404).

Definition internal_error : Response :=
  (JErrors [lit "Internal server error"], 500).

(** [ORDER BY created_at DESC]: a row precedes another when its
    [created_at] is not earlier; NULL sorts below every value. *)
Definition time_leb (a b : option datetime) : bool :=
  match a, b with
  | None, _ => true
  | Some _, None => false
  | Some x, Some y => x <=? y
  end.

Definition created_desc (r1 r2 : Z * Ticket) : Prop :=
  time_leb (created_at r2.2) (created_at r1.2) = true.

#[export] Instance created_desc_dec r1 r2 : Decision (created_desc r1 r2).
Proof. unfold created_desc. apply _. Defined.

(** [GET /api/tickets?status=&assigned_admin=] *)
Definition get_tickets (status_filter admin_filter : pystr)
    (db : gmap Z Ticket) : Response :=
  let query := map_to_list db in
  let query :=
    if truthy (PStr status_filter)
    then List.filter (fun r => bool_decide (status r.2 = status_filter)) query
    else query in
  let query :=
    if truthy (PStr admin_filter)
    then List.filter
           (fun r => bool_decide (assigned_admin r.2 = Some admin_filter)) query
    else query in
  let tickets := merge_sort created_desc query in
  (JTickets (map (fun r => to_dict r.1 r.2) tickets), 200).

(** A [String] or [Text] column binds a [str]. *)
Definition column_str (v : pyval) : result pystr :=
  match v with
  | PStr s => Ok s
  | _ => Raise SQLAlchemyError
  end.

(** [if errors:] *)
Definition nonempty {A} (l : list A) : bool :=
  match l with
  | [] => false
  | _ :: _ => true
  end.

(** [if ticket.assigned_admin:] -- NULL and the empty string are falsy. *)
Definition assigned (t : Ticket) : bool :=
  match assigned_admin t with
  | None => false
  | Some a => truthy (PStr a)
  end.

(** [POST /api/tickets]; [json] is what [request.get_json()] returns.
    An exception that leaves the handler is answered by the 500 error
    handler, which rolls the session back. *)
Definition create_ticket (session : Session) (json : pyval) (env : Env)
    (db : gmap Z Ticket) : Response * gmap Z Ticket :=
  if negb (is_reporter session)
  then ((JErrors [lit "Only reporters can create tickets"], 403), db)
  else
    let data := json in
    if negb (truthy data)
    then ((JErrors [lit "No data provided"], 400), db)
    else
      match validate_ticket_data data with
      | Raise _ => (internal_error, db)
      | Ok errors =>
          if nonempty errors
          then ((JErrors errors, 400), db)
          else
            let try :=
              t ← getitem data (lit "title");
              d ← getitem data (lit "description");
              p ← getitem data (lit "priority");
              t ← column_str t;
              d ← column_str d;
              p ← column_str p;
              let ticket := new_ticket env t d p (name (current_user session)) in
              let id := next_id db in
              db' ← commit env (<[id := ticket]> db);
              Ok (to_dict id ticket, db') in
            match try with
            | Ok (body, db') => ((JTicket body, 201), db')
            | Raise _ => ((JErrors [lit "Failed to create ticket"], 500), db)
            end
      end.

(** [PATCH /api/tickets/<int:ticket_id>/assign-self] *)
Definition assign_self (session : Session) (ticket_id : Z) (env : Env)
    (db : gmap Z Ticket) : Response * gmap Z Ticket :=
  if negb (is_admin session)
  then ((JErrors [lit "Only admins can assign tickets"], 403), db)
  else
    match db !! ticket_id with
    | None => (not_found, db)
    | Some ticket =>
        if assigned ticket
        then ((JErrors [lit "Ticket is already assigned"], 400), db)
        else
          let ticket' :=
            {| title := title ticket;
               description := description ticket;
               priority := priority ticket;
               status := status ticket;
               reporter_name := reporter_name ticket;
               assigned_admin := Some (name (current_user session));
               created_at := created_at ticket;
               updated_at := Some (utcnow env 0%nat) |} in
          match commit env (<[ticket_id := ticket']> db) with
          | Ok db' => ((JTicket (to_dict ticket_id ticket'), 200), db')
          | Raise _ => ((JErrors [lit "Failed to assign ticket"], 500), db)
          end
    end.

Definition status_invalid : pystr :=
  lit "Status must be one of: " ++ join (lit ", ") valid_statuses.

(** [PATCH /api/tickets/<int:ticket_id>/status] *)
Definition update_status (session : Session) (ticket_id : Z) (json : pyval)
    (env : Env) (db : gmap Z Ticket) : Response * gmap Z Ticket :=
  if negb (is_admin session)
  then ((JErrors [lit "Only admins can update ticket status"], 403), db)
  else
    match db !! ticket_id with
    | None => (not_found, db)
    | Some ticket =>
        let data := json in
        let missing :=
          if negb (truthy data) then Ok true
          else b ← py_in (lit "status") data; Ok (negb b) in
        match missing with
        | Raise _ => (internal_error, db)
        | Ok true => ((JErrors [lit "Status is required"], 400), db)
        | Ok false =>
            match getitem data (lit "status") with
            | Raise _ => (internal_error, db)
            | Ok new_status =>
                if negb (in_strs new_status valid_statuses)
                then ((JErrors [status_invalid], 400), db)
                else
                  let try :=
                    s ← column_str new_status;
                    let ticket' :=
                      {| title := title ticket;
                         description := description ticket;
                         priority := priority ticket;
                         status := s;
                         reporter_name := reporter_name ticket;
                         assigned_admin := assigned_admin ticket;
                         created_at := created_at ticket;
                         updated_at := Some (utcnow env 0%nat) |} in
                    db' ← commit env (<[ticket_id := ticket']> db);
                    Ok (to_dict ticket_id ticket', db') in
                  match try with
                  | Ok (body, db') => ((JTicket body, 200), db')
                  | Raise _ =>
                      ((JErrors [lit "Failed to update ticket status"], 500), db)
                  end
            end
        end
    end.

(** [DELETE /api/tickets/<int:ticket_id>]; the session is not read. *)
Definition delete_ticket (session : Session) (ticket_id : Z) (env : Env)
    (db : gmap Z Ticket) : Response * gmap Z Ticket :=
  match db !! ticket_id with
  | None => (not_found, db)
  | Some ticket =>
      match commit env (delete ticket_id db) with
      | Ok db' => ((JMessage (lit "Ticket deleted successfully"), 200), db')
      | Raise _ => ((JErrors [lit "Failed to delete ticket"], 500), db)
      end
  end.

End App.

Import App.

(** ** seed.py *)
Module Seed.

(** A [Ticket] built from one sample dictionary, with the two timestamp
    defaults filled at insertion. *)
Definition sample (t d p s r : pystr) (a : option pystr)
    (created updated : datetime) : Ticket :=
  {| title := t;
     description := d;
     priority := p;
     status := s;
     reporter_name := r;
     assigned_admin := a;
     created_at := Some created;
     updated_at := Some updated |}.

Definition sample_tickets : list (datetime → datetime → Ticket) := [
  sample (lit "Website login not working")
         (lit "Users are unable to log in to the website. Getting error 500 when trying to access the login page. This is affecting all users since yesterday.")
         (lit "high") (lit "open") (lit "Alice") None;
  sample (lit "Database connection slow")
         (lit "Database queries are taking longer than usual. Response times have increased from 100ms to 2-3 seconds. This is impacting user experience.")
         (lit "medium") (lit "in_progress") (lit "Bob") (Some (lit "Admin1"));
  sample (lit "Email notifications not sending")
         (lit "Users are not receiving email notifications for password resets and account confirmations. SMTP server seems to be down.")
         (lit "high") (lit "open") (lit "Alice") None;
  sample (lit "Mobile app crashes on startup")
         (lit "The mobile app crashes immediately when opened on iOS devices. Android devices work fine. This started happening after the latest update.")
         (lit "medium") (lit "open") (lit "Bob") None;
  sample (lit "User profile picture upload fails")
         (lit "Users cannot upload profile pictures. The upload button is not responding and no error message is shown. File size limit is set to 5MB.")
         (lit "low") (lit "closed") (lit "Alice") (Some (lit "Admin2"))
].

(** [db.session.add(ticket)] for the [i]-th sample ticket. *)
Definition add_sample (env : Env) (acc : gmap Z Ticket * nat)
    (mk : datetime → datetime → Ticket) : gmap Z Ticket * nat :=
  (<[next_id acc.1 := mk (utcnow env (2 * acc.2)%nat)
                         (utcnow env (2 * acc.2 + 1)%nat)]> acc.1,
   S acc.2).

(** [create_sample_tickets()]: the five rows are added and committed
    together; a failed commit is rolled back. *)
Definition create_sample_tickets (env : Env) (db : gmap Z Ticket)
    : gmap Z Ticket :=
  let added := foldl (add_sample env) (db, 0%nat) sample_tickets in
  match commit env added.1 with
  | Ok db' => db'
  | Raise _ => db
  end.

End Seed.

Import Seed.

(** ** app.py: the page routes and the error handlers *)
Module Pages.

(** [flash(message, category)] queues a message in the session. *)
Definition flash (message category : pystr) (session : Session) : Session :=
  {| user_name := user_name session;
     user_role := user_role session;
     flashes := flashes session ++ [(message, category)] |}.

(** What a page route or an error handler returns: a redirect, one of
    the three templates with the values passed to it, or a JSON
    response. *)
Inductive Page : Type :=
| Redirect (endpoint : pystr)
| RenderIndex (tickets : list (Z * Ticket))
    (status_counts : list (pystr * nat)) (user : User)
    (reporters admins : list pystr)
| RenderNewTicket (user : User)
| RenderAdmin (tickets : list (Z * Ticket)) (user : User)
    (reporters admins : list pystr)
| Json (r : Response).

(** [Ticket.query.filter_by(status=status).count()] *)
Definition count_status (status0 : pystr) (db : gmap Z Ticket) : nat :=
  length (List.filter (fun r => bool_decide (status r.2 = status0))
            (map_to_list db)).

(** [GET /]: the tickets with the optional filters, newest first, and
    the number of tickets per status (a dictionary filled in the order
    of [valid_statuses]). *)
Definition index (status_filter admin_filter : pystr) (session : Session)
    (db : gmap Z Ticket) : Page :=
  let query := map_to_list db in
  let query :=
    if truthy (PStr status_filter)
    then List.filter (fun r => bool_decide (status r.2 = status_filter)) query
    else query in
  let query :=
    if truthy (PStr admin_filter)
    then List.filter
           (fun r => bool_decide (assigned_admin r.2 = Some admin_filter)) query
    else query in
  let tickets := merge_sort created_desc query in
  (* Get counts by status *)
  let status_counts :=
    map (fun status0 => (status0, count_status status0 db)) valid_statuses in
  RenderIndex tickets status_counts (current_user session) REPORTERS ADMINS.

(** [GET /new_ticket] *)
Definition new_ticket (session : Session) : Page * Session :=
  if negb (is_reporter session)
  then (Redirect (lit "index"),
        flash (lit "Only reporters can create tickets") (lit "error") session)
  else (RenderNewTicket (current_user session), session).


(** The error handlers; [path] is [request.path]. The 500 handler also
    rolls the database session back, which leaves the table as it
    was. *)
Definition bad_request (path : pystr) (session : Session) : Page * Session :=
  if startswith path (lit "/api/")
  then (Json (JErrors [lit "Bad request"], 400), session)
  else (Redirect (lit "index"), flash (lit "Bad request") (lit "error") session).

Definition not_found (path : pystr) (session : Session) : Page * Session :=
  if startswith path (lit "/api/")
  then (Json (JMessage (lit "Resource not found"), 404), session)
  else (Redirect (lit "index"),
        flash (lit "Page not found") (lit "error") session).

Definition internal_error (path : pystr) (session : Session)
    : Page * Session :=
  if startswith path (lit "/api/")
  then (Json (JErrors [lit "Internal server error"], 500), session)
  else (Redirect (lit "index"),
        flash (lit "Internal server error") (lit "error") session).

End Pages.

(** ** app.py: the API routes, from the request as Flask hands it over *)
Module Routes.

(** What [request.get_json()] meets in a request. *)
Inductive RequestBody : Type :=
| NotJson                  (* the Content-Type is not JSON *)
| Malformed                (* JSON Content-Type, data that is no JSON
                              document; an empty body is one *)
| Parsed (json : pyval).   (* a JSON document *)

(** The two HTTP exceptions [request.get_json()] raises. *)
Inductive HTTPException : Type :=
| UnsupportedMediaType
| BadRequest.

(** [request.get_json()] *)
Definition get_json (body : RequestBody) : HTTPException + pyval :=
  match body with
  | NotJson => inl UnsupportedMediaType
  | Malformed => inl BadRequest
  | Parsed json => inr json
  end.

(** What the client receives: a JSON response of the application, or
    Werkzeug's own error page with its status code. *)
Inductive Reply : Type :=
| Api (r : Response)
| Default (code : Z).

(** An HTTP exception that leaves a handler, on a path under /api/: the
    application registers a handler for 400 and none for 415. *)
Definition abort (e : HTTPException) : Reply :=
  match e with
  | BadRequest => Api (JErrors [lit "Bad request"], 400)
  | UnsupportedMediaType => Default 415
  end.

(** The outcomes of [Ticket.query.get_or_404(ticket_id)]: the row, the
    404 abort, or the [OverflowError] of a key that does not fit
    SQLite's 64-bit INTEGER. *)
Inductive Row : Type :=
| Found (ticket : Ticket)
| NotFound
| OverflowError.

(** [Ticket.query.get_or_404(ticket_id)]; the [<int:ticket_id>]
    converter yields a non-negative integer of any size. *)
Definition get_or_404 (ticket_id : N) (db : gmap Z Ticket) : Row :=
  if (2 ^ 63 <=? ticket_id)%N then OverflowError
  else match db !! Z.of_N ticket_id with
       | Some ticket => Found ticket
       | None => NotFound
       end.

(** A response of the handler proper. *)
Definition api (r : Response * gmap Z Ticket) : Reply * gmap Z Ticket :=
  (Api r.1, r.2).

(** [POST /api/tickets]: the role test, then [request.get_json()], then
    the rest of the handler on the parsed document. *)
Definition create_ticket (session : Session) (body : RequestBody)
    (env : Env) (db : gmap Z Ticket) : Reply * gmap Z Ticket :=
  if negb (is_reporter session)
  then (Api (JErrors [lit "Only reporters can create tickets"], 403), db)
  else
    match get_json body with
    | inl e => (abort e, db)
    | inr data => api (App.create_ticket session data env db)
    end.

(** [PATCH /api/tickets/<int:ticket_id>/assign-self]: the role test,
    then the lookup, then the rest of the handler. *)
Definition assign_self (session : Session) (ticket_id : N) (env : Env)
    (db : gmap Z Ticket) : Reply * gmap Z Ticket :=
  if negb (is_admin session)
  then (Api (JErrors [lit "Only admins can assign tickets"], 403), db)
  else
    match get_or_404 ticket_id db with
    | OverflowError => (Api App.internal_error, db)
    | NotFound => (Api App.not_found, db)
    | Found _ => api (App.assign_self session (Z.of_N ticket_id) env db)
    end.

(** [PATCH /api/tickets/<int:ticket_id>/status]: the role test, then
    the lookup, then [request.get_json()], then the rest of the
    handler. *)
Definition update_status (session : Session) (ticket_id : N)
    (body : RequestBody) (env : Env) (db : gmap Z Ticket)
    : Reply * gmap Z Ticket :=
  if negb (is_admin session)
  then (Api (JErrors [lit "Only admins can update ticket status"], 403), db)
  else
    match get_or_404 ticket_id db with
    | OverflowError => (Api App.internal_error, db)
    | NotFound => (Api App.not_found, db)
    | Found _ =>
        match get_json body with
        | inl e => (abort e, db)
        | inr data =>
            api (App.update_status session (Z.of_N ticket_id) data env db)
        end
    end.

(** [DELETE /api/tickets/<int:ticket_id>]: the lookup, then the rest of
    the handler. *)
Definition delete_ticket (session : Session) (ticket_id : N) (env : Env)
    (db : gmap Z Ticket) : Reply * gmap Z Ticket :=
  match get_or_404 ticket_id db with
  | OverflowError => (Api App.internal_error, db)
  | NotFound => (Api App.not_found, db)
  | Found _ => api (App.delete_ticket session (Z.of_N ticket_id) env db)
  end.

(** The requests of the API. *)
Inductive Request : Type :=
| Get (status_filter admin_filter : pystr)
| Post (body : RequestBody)
| PatchAssignSelf (ticket_id : N)
| PatchStatus (ticket_id : N) (body : RequestBody)
| Delete (ticket_id : N).



End Routes.

(** ** Vocabulary of the specification *)

(** The identities [set_role] can leave in a session: nothing stored
    (the defaults apply), a listed reporter, or a listed admin. *)
Definition session_ok (session : Session) : Prop :=
  (user_name session = None ∧ user_role session = None) ∨
  (∃ n, user_name session = Some n ∧ n ∈ REPORTERS ∧
        user_role session = Some (lit "Reporter")) ∨
  (∃ n, user_name session = Some n ∧ n ∈ ADMINS ∧
        user_role session = Some (lit "Admin")).

(** A closed decidable proposition, settled by evaluation. *)
Ltac by_eval := apply (bool_decide_unpack _); vm_compute; exact I.

(** The error list carries a message about the title (about the
    description). *)
Definition title_error (errors : list pystr) : Prop :=
  title_required ∈ errors ∨ title_length ∈ errors.

Definition description_error (errors : list pystr) : Prop :=
  description_required ∈ errors ∨ description_length ∈ errors.

#[local] Instance title_error_dec errors : Decision (title_error errors).
Proof. unfold title_error. apply _. Defined.

#[local] Instance description_error_dec errors :
  Decision (description_error errors).
Proof. unfold description_error. apply _. Defined.

(** Arithmetic on the branch conditions, or propositional closing. *)
Ltac settle_arith := first [unfold len in *; lia | naive_solver].

(** The proposition [A] about a closed error list is settled by
    evaluation, [P] by arithmetic on the branch conditions. *)
Ltac settle_iff :=
  match goal with
  | |- ?A ↔ ?P =>
      first
        [ assert A by by_eval; assert P by settle_arith; tauto
        | assert (¬ A) by by_eval; assert (¬ P) by settle_arith; tauto ]
  end.

(** A request body {title, description, priority}. *)
Definition sample_data (t d p : pyval) : pyval :=
  PDict (<[lit "title" := t]>
         (<[lit "description" := d]>
          (<[lit "priority" := p]> ∅))).

(** An environment whose clock counts its readings and whose commits
    go through. *)
Definition env0 : Env := {| utcnow := λ n, Z.of_nat n; commit_ok := true |}.

(** Two sessions obtained from [set_role]. *)
Definition bob_session : Session :=
  set_role (Some (lit "Bob")) (Some (lit "Reporter")) empty_session.

Definition admin2_session : Session :=
  set_role (Some (lit "Admin2")) (Some (lit "Admin")) empty_session.

(** A body that passes validation. *)
Definition good_data : pyval :=
  sample_data (PStr (lit "Printer jam")) (PStr (lit "Tray 2"))
              (PStr (lit "high")).

(** A title and a description that are within bounds only once
    trimmed. *)
Definition padded_title : pystr := lit "abc" ++ repeat 32%N 118.
Definition padded_description : pystr := lit "d" ++ repeat 32%N 1000.

(** *** The service as a transition system *)

(** The API requests. *)
Inductive Request : Type :=
| GetTickets (status_filter admin_filter : pystr)
| CreateTicket (json : pyval)
| AssignSelf (ticket_id : Z)
| UpdateStatus (ticket_id : Z) (json : pyval)
| DeleteTicket (ticket_id : Z).

Definition handle (session : Session) (req : Request) (env : Env)
    (db : gmap Z Ticket) : Response * gmap Z Ticket :=
  match req with
  | GetTickets status_filter admin_filter =>
      (get_tickets status_filter admin_filter db, db)
  | CreateTicket json => create_ticket session json env db
  | AssignSelf ticket_id => assign_self session ticket_id env db
  | UpdateStatus ticket_id json => update_status session ticket_id json env db
  | DeleteTicket ticket_id => delete_ticket session ticket_id env db
  end.

(** One operation on the table: an API request made under a session
    that [set_role] can have produced, or a run of the seed script. *)
Inductive transition (db : gmap Z Ticket) : gmap Z Ticket → Prop :=
| transition_request session req env :
    session_ok session →
    transition db (handle session req env db).2
| transition_seed env :
    transition db (create_sample_tickets env db).

(** The tables the service can be in, starting from the empty table of
    [db.create_all()]. *)
Definition reachable (db : gmap Z Ticket) : Prop := rtc transition ∅ db.

(** The invariant behind Self-assign: a stored [assigned_admin] is NULL
    or the name of a listed admin (never the empty string). *)
Definition admin_ok (a : option pystr) : Prop :=
  a = None ∨ ∃ who, a = Some who ∧ who ∈ ADMINS.

(** The invariant, on every row of a table. *)
Definition db_ok (db : gmap Z Ticket) : Prop :=
  ∀ id ticket, db !! id = Some ticket → admin_ok (assigned_admin ticket).

(** [ticket.assigned_admin = who; ticket.updated_at = now] *)
Definition with_assignment (ticket : Ticket) (who : pystr) (now : datetime)
    : Ticket :=
  {| title := title ticket;
     description := description ticket;
     priority := priority ticket;
     status := status ticket;
     reporter_name := reporter_name ticket;
     assigned_admin := Some who;
     created_at := created_at ticket;
     updated_at := Some now |}.

(** [ticket.status = s; ticket.updated_at = now] *)
Definition with_status (ticket : Ticket) (s : pystr) (now : datetime)
    : Ticket :=
  {| title := title ticket;
     description := description ticket;
     priority := priority ticket;
     status := s;
     reporter_name := reporter_name ticket;
     assigned_admin := assigned_admin ticket;
     created_at := created_at ticket;
     updated_at := Some now |}.

(** The table after one run of the seed script on the empty table. *)
Definition seeded : gmap Z Ticket := create_sample_tickets env0 ∅.

(** The field [key] of a request body; a body that is not a JSON object
    has no fields. *)
Definition field (json : pyval) (key : pystr) : option pyval :=
  match json with
  | PDict d => d !! key
  | _ => None
  end.

(** A request body {status}. *)
Definition status_body (v : pyval) : pyval :=
  PDict (<[lit "status" := v]> ∅).

(** The tickets of a List response. *)
Definition listed (resp : Response) : list TicketDict :=
  match resp.1 with
  | JTickets l => l
  | _ => []
  end.

(** *** Further vocabulary *)

(** A body on which [validate_ticket_data] can work: a JSON object whose
    title and description are strings or absent. *)
Definition well_typed (data : pyval) : Prop :=
  ∃ d t ds,
    data = PDict d ∧
    default (PStr (lit "")) (d !! lit "title") = PStr t ∧
    default (PStr (lit "")) (d !! lit "description") = PStr ds.

(** The key a request can write to. *)
Definition target (req : Request) (db : gmap Z Ticket) : option Z :=
  match req with
  | GetTickets _ _ => None
  | CreateTicket _ => Some (next_id db)
  | AssignSelf ticket_id => Some ticket_id
  | UpdateStatus ticket_id _ => Some ticket_id
  | DeleteTicket ticket_id => Some ticket_id
  end.


(** What holds of every row the service stores. *)
Definition row_ok (id : Z) (ticket : Ticket) : Prop :=
  1 ≤ id ∧
  status ticket ∈ valid_statuses ∧
  priority ticket ∈ valid_priorities ∧
  reporter_name ticket ∈ REPORTERS ∧
  3 ≤ len (strip (title ticket)) ≤ 120 ∧
  1 ≤ len (strip (description ticket)) ≤ 1000 ∧
  is_Some (created_at ticket) ∧
  is_Some (updated_at ticket).

Definition rows_ok (db : gmap Z Ticket) : Prop :=
  ∀ id ticket, db !! id = Some ticket → row_ok id ticket.

(** The order of a List response: a ticket comes before another when
    its [created_at] is not earlier. *)
Definition newest_first (a b : TicketDict) : Prop :=
  time_leb (d_created_at b) (d_created_at a) = true.

(** The filters of List and of the index page, on one row. *)
Definition passes (status_filter admin_filter : pystr) (ticket : Ticket)
    : Prop :=
  (status_filter = [] ∨ status ticket = status_filter) ∧
  (admin_filter = [] ∨ assigned_admin ticket = Some admin_filter).

(** The sum of the counts of a status dictionary. *)
Definition total_count (counts : list (pystr * nat)) : nat :=
  foldr (λ c n, (c.2 + n)%nat) 0%nat counts.

(** The status dictionary and the tickets passed to a template. *)
Definition page_counts (p : Pages.Page) : list (pystr * nat) :=
  match p with
  | Pages.RenderIndex _ counts _ _ _ => counts
  | _ => []
  end.

Definition page_tickets (p : Pages.Page) : list (Z * Ticket) :=
  match p with
  | Pages.RenderIndex tickets _ _ _ _ => tickets
  | Pages.RenderAdmin tickets _ _ _ => tickets
  | _ => []
  end.

(** An identity whose name is on the allow-list of its role. *)
Definition consistent (u : User) : Prop :=
  (role u = lit "Reporter" ∧ name u ∈ REPORTERS) ∨
  (role u = lit "Admin" ∧ name u ∈ ADMINS).

(** The five messages of [validate_ticket_data], in the order of its
    checks. *)
Definition all_messages : list pystr :=
  [title_required; title_length; description_required; description_length;
   priority_invalid].

(** Case analysis on every test a handler makes. *)
Ltac handler_cases :=
  unfold handle, get_tickets, create_ticket, assign_self, update_status,
    delete_ticket, commit, mbind, result_bind, App.not_found,
    App.internal_error;
  repeat case_match; simplify_eq/=.


(** * Properties *)

(** ** Identity resolver *)

Lemma opt_eq_true o s : opt_eq o s = true ↔ o = Some s.
Proof. unfold opt_eq. apply bool_decide_eq_true. Qed.

Lemma opt_in_true o l : opt_in o l = true ↔ ∃ s, o = Some s ∧ s ∈ l.
Proof.
  unfold opt_in. rewrite existsb_exists. split.
  - intros (s & Hin & Heq). apply opt_eq_true in Heq.
    exists s. split; [done | by apply list_elem_of_In].
  - intros (s & -> & Hin). exists s.
    split; [by apply list_elem_of_In | by apply opt_eq_true].
Qed.

Lemma opt_in_false o l : opt_in o l = false ↔ ∀ s, s ∈ l → o ≠ Some s.
Proof.
  rewrite <- not_true_iff_false, opt_in_true. split.
  - intros Hno s Hin ->. apply Hno. eauto.
  - intros Hall (s & -> & Hin). by apply (Hall s).
Qed.

Lemma session_ok_empty : session_ok empty_session.
Proof. left. done. Qed.

Lemma set_role_session_ok n r session :
  session_ok session → session_ok (set_role n r session).
Proof.
  intros Hok. unfold set_role.
  destruct (opt_eq r (lit "Reporter") && opt_in n REPORTERS) eqn:H1.
  { apply andb_true_iff in H1 as [_ (s & -> & Hin)%opt_in_true].
    right; left. exists s. done. }
  destruct (opt_eq r (lit "Admin") && opt_in n ADMINS) eqn:H2.
  { apply andb_true_iff in H2 as [_ (s & -> & Hin)%opt_in_true].
    right; right. exists s. done. }
  destruct (opt_eq r (lit "Admin")).
  { right; right. exists (lit "Admin1"). split_and!; [done | | done].
    apply list_elem_of_here. }
  destruct (opt_eq r (lit "Reporter")).
  { right; left. exists (lit "Alice"). split_and!; [done | | done].
    apply list_elem_of_here. }
  exact Hok.
Qed.

(** An admin session carries a listed admin's name. *)
Lemma is_admin_name session :
  session_ok session → is_admin session = true →
  name (current_user session) ∈ ADMINS.
Proof.
  unfold is_admin, current_user. simpl. intros Hok Hadm.
  apply bool_decide_eq_true in Hadm.
  destruct Hok as [[_ Hr] | [(n & _ & _ & Hr) | (n & Hn & Hin & _)]].
  - rewrite Hr in Hadm. discriminate.
  - rewrite Hr in Hadm. discriminate.
  - by rewrite Hn.
Qed.

(** C2: [set_role] on a name of the requested role's allow-list makes
    the session identity exactly (name, role); on a recognized role with
    a name outside its allow-list (or no name) the identity becomes the
    role's default, Admin1 for Admin and Alice for Reporter, and nothing
    is flashed; on any other role a failure is flashed and the identity
    is unchanged. *)
Theorem set_role_spec (n r : option pystr) (session : Session) :
  (∀ who, n = Some who →
     (r = Some (lit "Reporter") ∧ who ∈ REPORTERS ∨
      r = Some (lit "Admin") ∧ who ∈ ADMINS) →
     ∃ rl, r = Some rl ∧
       current_user (set_role n r session) = {| name := who; role := rl |} ∧
       flashes (set_role n r session) = flashes session) ∧
  (r = Some (lit "Admin") → (∀ who, who ∈ ADMINS → n ≠ Some who) →
     current_user (set_role n r session) =
       {| name := lit "Admin1"; role := lit "Admin" |} ∧
     flashes (set_role n r session) = flashes session) ∧
  (r = Some (lit "Reporter") → (∀ who, who ∈ REPORTERS → n ≠ Some who) →
     current_user (set_role n r session) =
       {| name := lit "Alice"; role := lit "Reporter" |} ∧
     flashes (set_role n r session) = flashes session) ∧
  (r ≠ Some (lit "Admin") → r ≠ Some (lit "Reporter") →
     user_name (set_role n r session) = user_name session ∧
     user_role (set_role n r session) = user_role session ∧
     current_user (set_role n r session) = current_user session ∧
     flashes (set_role n r session) =
       flashes session ++ [(lit "Invalid user or role", lit "error")]).
Proof.
  split_and!.
  - intros who -> [[-> Hin] | [-> Hin]].
    + exists (lit "Reporter"). unfold set_role.
      assert (opt_in (Some who) REPORTERS = true) as ->
        by (apply opt_in_true; eauto).
      done.
    + exists (lit "Admin"). unfold set_role.
      assert (opt_in (Some who) ADMINS = true) as ->
        by (apply opt_in_true; eauto).
      done.
  - intros -> Hout. apply opt_in_false in Hout.
    unfold set_role. rewrite Hout. done.
  - intros -> Hout. apply opt_in_false in Hout.
    unfold set_role. rewrite Hout. done.
  - intros Ha Hr. unfold set_role.
    assert (opt_eq r (lit "Reporter") = false) as ->
      by (apply not_true_iff_false; by rewrite opt_eq_true).
    assert (opt_eq r (lit "Admin") = false) as ->
      by (apply not_true_iff_false; by rewrite opt_eq_true).
    done.
Qed.

Lemma set_role_spec_witness :
  current_user (set_role (Some (lit "Alice")) (Some (lit "Reporter"))
                  empty_session) =
    {| name := lit "Alice"; role := lit "Reporter" |} ∧
  current_user (set_role (Some (lit "Alice")) (Some (lit "Admin"))
                  empty_session) =
    {| name := lit "Admin1"; role := lit "Admin" |} ∧
  current_user (set_role (Some (lit "Bob")) (Some (lit "Root"))
                  empty_session) = current_user empty_session.
Proof.
  split_and!.
  - destruct (set_role_spec (Some (lit "Alice")) (Some (lit "Reporter"))
                empty_session) as (H & _).
    destruct (H (lit "Alice") eq_refl) as (rl & Hrl & Hu & _).
    + left. split; [reflexivity | apply list_elem_of_here].
    + injection Hrl as <-. exact Hu.
  - destruct (set_role_spec (Some (lit "Alice")) (Some (lit "Admin"))
                empty_session) as (_ & H & _).
    apply H; [reflexivity | apply opt_in_false; reflexivity].
  - destruct (set_role_spec (Some (lit "Bob")) (Some (lit "Root"))
                empty_session) as (_ & _ & _ & H).
    destruct H as (_ & _ & H & _); [discriminate | discriminate |]. exact H.
Defined.

(** ** Validation *)

Lemma in_strs_true v l : in_strs v l = true ↔ ∃ s, s ∈ l ∧ v = PStr s.
Proof.
  unfold in_strs. rewrite existsb_exists. split.
  - intros (s & Hin & Heq). exists s. split; [by apply list_elem_of_In |].
    destruct v; simpl in Heq; try discriminate.
    apply bool_decide_eq_true in Heq. by subst.
  - intros (s & Hin & ->). exists s. split; [by apply list_elem_of_In |].
    simpl. by apply bool_decide_eq_true.
Qed.

(** The priority test of [validate_ticket_data] on a dictionary. *)
Lemma priority_in_strs (d : gmap pystr pyval) :
  in_strs (default (PStr (lit "")) (d !! lit "priority")) valid_priorities
    = true ↔
  ∃ s, s ∈ valid_priorities ∧ d !! lit "priority" = Some (PStr s).
Proof.
  rewrite in_strs_true. split.
  - intros (s & Hin & Heq). exists s. split; [done |].
    destruct (d !! lit "priority") as [v|]; simpl in Heq; [by subst |].
    injection Heq as <-. exfalso. revert Hin. by_eval.
  - intros (s & Hin & ->). eauto.
Qed.

(** When [validate_ticket_data] reports nothing on a JSON object, the
    trimmed title and description are within their bounds. *)
Lemma validate_ticket_data_passes (d : gmap pystr pyval) (t ds : pystr) :
  default (PStr (lit "")) (d !! lit "title") = PStr t →
  default (PStr (lit "")) (d !! lit "description") = PStr ds →
  validate_ticket_data (PDict d) = Ok [] →
  3 ≤ len (strip t) ≤ 120 ∧ 1 ≤ len (strip ds) ≤ 1000.
Proof.
  intros Ht Hd. unfold validate_ticket_data, get, mbind, result_bind.
  rewrite Ht, Hd. unfold strip_method, truthy.
  rewrite !Z.gtb_ltb.
  destruct (in_strs _ valid_priorities);
    destruct (Nat.eqb_spec (length (strip t)) 0);
    destruct (Z.ltb_spec (len (strip t)) 3);
    destruct (Z.ltb_spec 120 (len (strip t)));
    destruct (Nat.eqb_spec (length (strip ds)) 0);
    destruct (Z.ltb_spec (len (strip ds)) 1);
    destruct (Z.ltb_spec 1000 (len (strip ds)));
    cbn [negb orb app]; intros Hv; try discriminate Hv;
    unfold len in *; lia.
Qed.

(** C3, on the inputs on which [validate_ticket_data] returns: for
    every JSON object whose title and description are strings or absent
    (an absent field counts as the empty string), the result carries a
    title error exactly when the trimmed title is shorter than 3 or
    longer than 120 (so for lengths 0, 2 and 121, and not for 3 and
    120), a description error exactly when the trimmed description is
    empty or longer than 1000 (so for 0 and 1001, not for 1 and 1000),
    and the priority error exactly when the priority is not one of low,
    medium, high, whatever the other two fields hold. *)
Theorem validate_ticket_data_fields (d : gmap pystr pyval) (t ds : pystr) :
  default (PStr (lit "")) (d !! lit "title") = PStr t →
  default (PStr (lit "")) (d !! lit "description") = PStr ds →
  ∃ errors,
    validate_ticket_data (PDict d) = Ok errors ∧
    (title_error errors ↔ ¬ (3 ≤ len (strip t) ≤ 120)) ∧
    (description_error errors ↔ ¬ (1 ≤ len (strip ds) ≤ 1000)) ∧
    (priority_invalid ∈ errors ↔
       ¬ ∃ s, s ∈ valid_priorities ∧ d !! lit "priority" = Some (PStr s)).
Proof.
  intros Ht Hd. setoid_rewrite <- priority_in_strs.
  unfold validate_ticket_data, get, mbind, result_bind.
  rewrite Ht, Hd. unfold strip_method, truthy.
  rewrite !Z.gtb_ltb.
  destruct (in_strs _ valid_priorities);
    destruct (Nat.eqb_spec (length (strip t)) 0);
    destruct (Z.ltb_spec (len (strip t)) 3);
    destruct (Z.ltb_spec 120 (len (strip t)));
    destruct (Nat.eqb_spec (length (strip ds)) 0);
    destruct (Z.ltb_spec (len (strip ds)) 1);
    destruct (Z.ltb_spec 1000 (len (strip ds)));
    cbn [negb orb app];
    (eexists; split; [reflexivity |]);
    split_and!; settle_iff.
Qed.

Lemma validate_ticket_data_fields_witness :
  ∃ errors,
    validate_ticket_data
      (sample_data (PStr (lit " ab ")) (PStr (lit "d")) (PStr (lit "low")))
      = Ok errors ∧
    title_error errors ∧ ¬ description_error errors ∧
    priority_invalid ∉ errors.
Proof.
  destruct (validate_ticket_data_fields
              (<[lit "title" := PStr (lit " ab ")]>
               (<[lit "description" := PStr (lit "d")]>
                (<[lit "priority" := PStr (lit "low")]> ∅)))
              (lit " ab ") (lit "d"))
    as (errors & Hv & Ht & Hd & Hp); [reflexivity | reflexivity |].
  exists errors. split; [exact Hv |]. split_and!.
  - apply Ht. vm_compute. intros [H _]. by apply H.
  - rewrite Hd. intros H. apply H. vm_compute. split; discriminate.
  - rewrite Hp. intros H. apply H. exists (lit "low").
    split; [apply list_elem_of_here | reflexivity].
Defined.

(** A title that is not a string makes [validate_ticket_data] raise
    before the priority is looked at: no error list is returned, hence
    no priority error, although the priority is outside the
    enumeration. *)
Lemma validate_ticket_data_non_string_title :
  let data := sample_data (PInt 5) (PStr (lit "d")) (PStr (lit "urgent")) in
  get data (lit "priority") (PStr (lit "")) = Ok (PStr (lit "urgent")) ∧
  in_strs (PStr (lit "urgent")) valid_priorities = false ∧
  validate_ticket_data data = Raise AttributeError ∧
  ¬ ∃ errors, validate_ticket_data data = Ok errors ∧
              priority_invalid ∈ errors.
Proof.
  split_and!; [reflexivity | reflexivity | reflexivity |].
  intros (errors & Hv & _). vm_compute in Hv. discriminate.
Qed.

(** ** Create *)

Lemma next_id_fresh (db : gmap Z Ticket) : db !! next_id db = None.
Proof.
  destruct (db !! next_id db) as [t|] eqn:Hl; [exfalso | done].
  apply elem_of_map_to_list in Hl. unfold next_id in Hl.
  assert (∀ (l : list (Z * Ticket)) k v,
            (k, v) ∈ l → k ≤ foldr Z.max 0 (map fst l)) as Hmax.
  { clear. induction l as [|[k' v'] l IH]; intros k v Hin.
    - by apply elem_of_nil in Hin.
    - apply elem_of_cons in Hin as [[= -> ->] | Hin]; simpl.
      + lia.
      + specialize (IH _ _ Hin). lia. }
  apply Hmax in Hl. lia.
Qed.

(** The two outcomes of [create_ticket]: a row is inserted and the
    answer is 201, or the table is returned as it was with another
    status code. *)
Lemma create_ticket_cases session json env db :
  (∃ t d p,
     is_reporter session = true ∧
     validate_ticket_data json = Ok [] ∧
     getitem json (lit "title") = Ok (PStr t) ∧
     getitem json (lit "description") = Ok (PStr d) ∧
     getitem json (lit "priority") = Ok (PStr p) ∧
     commit_ok env = true ∧
     let ticket := new_ticket env t d p (name (current_user session)) in
     create_ticket session json env db =
       ((JTicket (to_dict (next_id db) ticket), 201),
        <[next_id db := ticket]> db)) ∨
  ((create_ticket session json env db).2 = db ∧
   (create_ticket session json env db).1.2 ≠ 201).
Proof.
  unfold create_ticket.
  destruct (is_reporter session); simpl; [| by right].
  destruct (truthy json); simpl; [| by right].
  destruct (validate_ticket_data json) as [errors|]; [| by right].
  destruct errors; simpl; [| by right].
  unfold mbind, result_bind, commit.
  destruct (getitem json (lit "title")) as [vt|]; simpl; [| by right].
  destruct (getitem json (lit "description")) as [vd|]; simpl; [| by right].
  destruct (getitem json (lit "priority")) as [vp|]; simpl; [| by right].
  destruct vt as [| | | |t| |]; simpl; try by right.
  destruct vd as [| | | |d| |]; simpl; try by right.
  destruct vp as [| | | |p| |]; simpl; try by right.
  destruct (commit_ok env); simpl; [| by right].
  left. exists t, d, p. done.
Qed.

(** The only way [create_ticket] answers 201. *)
Lemma create_ticket_201 session json env db resp db' :
  create_ticket session json env db = (resp, db') →
  resp.2 = 201 →
  ∃ t d p,
    is_reporter session = true ∧
    validate_ticket_data json = Ok [] ∧
    getitem json (lit "title") = Ok (PStr t) ∧
    getitem json (lit "description") = Ok (PStr d) ∧
    getitem json (lit "priority") = Ok (PStr p) ∧
    commit_ok env = true ∧
    let ticket := new_ticket env t d p (name (current_user session)) in
    resp = (JTicket (to_dict (next_id db) ticket), 201) ∧
    db' = <[next_id db := ticket]> db.
Proof.
  intros Hc Hcode.
  destruct (create_ticket_cases session json env db)
    as [(t & d & p & H1 & H2 & H3 & H4 & H5 & H6 & H7) | [_ Hne]].
  - exists t, d, p. simpl in H7. rewrite H7 in Hc.
    injection Hc as <- <-. done.
  - rewrite Hc in Hne. done.
Qed.

(** C4: whenever Create answers 201, one row was inserted under a key
    that was free; its [reporter_name] is the acting identity's name,
    its [assigned_admin] is NULL, its [status] is 'open', both
    timestamps are set, and the body of the response is that row. *)
Theorem create_ticket_inserted session json env db resp db' :
  create_ticket session json env db = (resp, db') →
  resp.2 = 201 →
  ∃ id ticket,
    db !! id = None ∧
    db' = <[id := ticket]> db ∧
    resp.1 = JTicket (to_dict id ticket) ∧
    reporter_name ticket = name (current_user session) ∧
    assigned_admin ticket = None ∧
    status ticket = lit "open" ∧
    is_Some (created_at ticket) ∧
    is_Some (updated_at ticket).
Proof.
  intros Hc Hcode.
  destruct (create_ticket_201 _ _ _ _ _ _ Hc Hcode)
    as (t & d & p & _ & _ & _ & _ & _ & _ & -> & ->).
  eexists _, _. split; [apply next_id_fresh |].
  split_and!; try reflexivity; simpl; eauto.
Qed.

Lemma create_ticket_inserted_witness :
  ∃ id ticket,
    (∅ : gmap Z Ticket) !! id = None ∧
    (create_ticket bob_session good_data env0 ∅).2 = <[id := ticket]> ∅ ∧
    (create_ticket bob_session good_data env0 ∅).1.1 =
      JTicket (to_dict id ticket) ∧
    reporter_name ticket = lit "Bob" ∧
    assigned_admin ticket = None ∧
    status ticket = lit "open" ∧
    is_Some (created_at ticket) ∧
    is_Some (updated_at ticket).
Proof.
  apply (create_ticket_inserted bob_session good_data env0 ∅
           (create_ticket bob_session good_data env0 ∅).1
           (create_ticket bob_session good_data env0 ∅).2);
    reflexivity.
Defined.

Lemma lstrip_length s : (length (lstrip s) ≤ length s)%nat.
Proof.
  induction s as [|c s IH]; simpl; [lia |].
  destruct (isspace c); simpl; lia.
Qed.

Lemma strip_length s : (length (strip s) ≤ length s)%nat.
Proof.
  unfold strip, rstrip. rewrite length_rev.
  etrans; [apply lstrip_length |]. rewrite length_rev.
  apply lstrip_length.
Qed.

(** What validation does guarantee of the stored text: the bounds hold
    of the trimmed title and description, and the stored values are
    the untrimmed ones, so only the lower bounds carry over. *)
Lemma create_ticket_trimmed_bounds session json env db resp db' :
  create_ticket session json env db = (resp, db') →
  resp.2 = 201 →
  ∃ id ticket,
    db' = <[id := ticket]> db ∧
    3 ≤ len (strip (title ticket)) ≤ 120 ∧
    1 ≤ len (strip (description ticket)) ≤ 1000 ∧
    3 ≤ len (title ticket) ∧ 1 ≤ len (description ticket).
Proof.
  intros Hc Hcode.
  destruct (create_ticket_201 _ _ _ _ _ _ Hc Hcode)
    as (t & d & p & _ & Hv & Ht & Hd & _ & _ & _ & ->).
  eexists _, _. split; [reflexivity |]. simpl.
  destruct json as [| | | | | |m]; try discriminate.
  simpl in Ht, Hd.
  destruct (m !! lit "title") as [vt|] eqn:Et; [|discriminate].
  destruct (m !! lit "description") as [vd|] eqn:Ed; [|discriminate].
  injection Ht as ->. injection Hd as ->.
  destruct (validate_ticket_data_passes m t d) as [Hb1 Hb2];
    [by rewrite Et | by rewrite Ed | done |].
  pose proof (strip_length t). pose proof (strip_length d).
  unfold len in *. lia.
Qed.

(** C1 at a concrete request: a reporter posts a title of 121
    characters ('abc' followed by 118 spaces) and a description of 1001
    characters ('d' followed by 1000 spaces). Validation looks at the
    trimmed values and reports nothing, the request is answered 201,
    and the row stores the untrimmed title and description, of lengths
    121 and 1001. *)
Theorem create_ticket_stores_untrimmed :
  let data := sample_data (PStr padded_title) (PStr padded_description)
                          (PStr (lit "low")) in
  validate_ticket_data data = Ok [] ∧
  (create_ticket empty_session data env0 ∅).1.2 = 201 ∧
  ∃ ticket,
    (create_ticket empty_session data env0 ∅).2 !! 1 = Some ticket ∧
    title ticket = padded_title ∧ len (title ticket) = 121 ∧
    description ticket = padded_description ∧
    len (description ticket) = 1001.
Proof.
  split_and!; [vm_compute; reflexivity | vm_compute; reflexivity |].
  eexists. split_and!; vm_compute; reflexivity.
Qed.

(** The handler on a parsed document that is falsy: a reporter is
    answered 400 with the error list ['No data provided'], before field
    validation runs, and the table is left as it was. *)
Lemma create_ticket_no_data session json env db :
  is_reporter session = true →
  truthy json = false →
  create_ticket session json env db =
    ((JErrors [lit "No data provided"], 400), db).
Proof.
  intros Hrep Hfalsy. unfold create_ticket.
  rewrite Hrep, Hfalsy. reflexivity.
Qed.

Lemma create_ticket_no_data_witness :
  create_ticket empty_session PNone env0 ∅ =
    ((JErrors [lit "No data provided"], 400), ∅).
Proof.
  apply (create_ticket_no_data empty_session PNone); reflexivity.
Defined.

(** ** Authorization *)

(** C7: the role check is the first thing each gated handler does. A
    session that is not a reporter's gets 403 from Create, a session
    that is not an admin's gets 403 from Self-assign and Update-status,
    whatever the ticket id and the body, and the table returned is the
    table received. *)
Theorem unauthorized_403 session env db :
  (is_reporter session = false →
     ∀ json,
       create_ticket session json env db =
         ((JErrors [lit "Only reporters can create tickets"], 403), db)) ∧
  (is_admin session = false →
     (∀ ticket_id,
        assign_self session ticket_id env db =
          ((JErrors [lit "Only admins can assign tickets"], 403), db)) ∧
     (∀ ticket_id json,
        update_status session ticket_id json env db =
          ((JErrors [lit "Only admins can update ticket status"], 403), db))).
Proof.
  split.
  - intros Hr json. unfold create_ticket. rewrite Hr. reflexivity.
  - intros Ha. split.
    + intros ticket_id. unfold assign_self. rewrite Ha. reflexivity.
    + intros ticket_id json. unfold update_status. rewrite Ha. reflexivity.
Qed.

Lemma unauthorized_403_witness :
  create_ticket admin2_session good_data env0 seeded =
    ((JErrors [lit "Only reporters can create tickets"], 403), seeded) ∧
  assign_self bob_session 1 env0 seeded =
    ((JErrors [lit "Only admins can assign tickets"], 403), seeded) ∧
  update_status bob_session 1 (status_body (PStr (lit "closed"))) env0 seeded =
    ((JErrors [lit "Only admins can update ticket status"], 403), seeded).
Proof.
  split_and!.
  - apply (proj1 (unauthorized_403 admin2_session env0 seeded)). reflexivity.
  - apply (proj2 (unauthorized_403 bob_session env0 seeded)). reflexivity.
  - apply (proj2 (unauthorized_403 bob_session env0 seeded)). reflexivity.
Defined.

(** ** Effects of the handlers on the table *)

Lemma assign_self_effect session ticket_id env db :
  (assign_self session ticket_id env db).2 = db ∨
  ∃ ticket,
    db !! ticket_id = Some ticket ∧ assigned ticket = false ∧
    is_admin session = true ∧
    (assign_self session ticket_id env db).2 =
      <[ticket_id := with_assignment ticket (name (current_user session))
                       (utcnow env 0%nat)]> db.
Proof.
  unfold assign_self.
  destruct (is_admin session); simpl; [| by left].
  destruct (db !! ticket_id) as [ticket|]; [| by left].
  destruct (assigned ticket) eqn:Ha; [by left |].
  unfold commit. destruct (commit_ok env); [| by left].
  right. exists ticket. done.
Qed.

Lemma update_status_effect session ticket_id json env db :
  (update_status session ticket_id json env db).2 = db ∨
  ∃ ticket s,
    db !! ticket_id = Some ticket ∧
    (update_status session ticket_id json env db).2 =
      <[ticket_id := with_status ticket s (utcnow env 0%nat)]> db.
Proof.
  unfold update_status.
  destruct (is_admin session); cbn [negb]; [| by left].
  destruct (db !! ticket_id) as [ticket|]; [| by left].
  destruct (if negb (truthy json) then _ else _) as [[|]|]; try by left.
  destruct (getitem json (lit "status")) as [new_status|]; [| by left].
  destruct (negb (in_strs new_status valid_statuses)); [by left |].
  unfold mbind, result_bind, commit.
  destruct new_status as [| | | |s| |]; simpl; try by left.
  destruct (commit_ok env); simpl; [| by left].
  right. exists ticket, s. done.
Qed.

Lemma delete_ticket_effect session ticket_id env db :
  (delete_ticket session ticket_id env db).2 = db ∨
  (delete_ticket session ticket_id env db).2 = delete ticket_id db.
Proof.
  unfold delete_ticket.
  destruct (db !! ticket_id); [| by left].
  unfold commit. destruct (commit_ok env); [by right | by left].
Qed.

Lemma insert_fresh_lookup (db : gmap Z Ticket) id ticket new :
  db !! id = Some ticket → <[next_id db := new]> db !! id = Some ticket.
Proof.
  intros Hl. rewrite lookup_insert_ne; [done |].
  intros <-. rewrite next_id_fresh in Hl. discriminate.
Qed.

(** The seed script leaves the rows it finds as they are. *)
Lemma create_sample_tickets_lookup env (db : gmap Z Ticket) id ticket :
  db !! id = Some ticket → create_sample_tickets env db !! id = Some ticket.
Proof.
  intros Hl. unfold create_sample_tickets, commit.
  destruct (commit_ok env); [| done].
  unfold sample_tickets, add_sample. cbn [foldl fst snd].
  by do 5 apply insert_fresh_lookup.
Qed.

(** ** The invariant *)

Lemma db_ok_insert (db : gmap Z Ticket) id ticket :
  db_ok db → admin_ok (assigned_admin ticket) → db_ok (<[id := ticket]> db).
Proof.
  intros Hdb Ht id' ticket' Hl.
  destruct (decide (id = id')) as [<-|Hne].
  - rewrite lookup_insert_eq in Hl. by injection Hl as <-.
  - rewrite lookup_insert_ne in Hl by done. by apply (Hdb id').
Qed.

Lemma db_ok_delete (db : gmap Z Ticket) id : db_ok db → db_ok (delete id db).
Proof.
  intros Hdb id' ticket' Hl. apply lookup_delete_Some in Hl as [_ Hl].
  by apply (Hdb id').
Qed.

Lemma create_sample_tickets_ok env db :
  db_ok db → db_ok (create_sample_tickets env db).
Proof.
  intros Hdb. unfold create_sample_tickets, commit.
  destruct (commit_ok env); [| done].
  unfold sample_tickets, add_sample. cbn [foldl fst snd].
  repeat (apply db_ok_insert;
          [| first [ by left
                   | right; eexists; split; [reflexivity |]; by_eval ] ]).
  done.
Qed.

Lemma handle_ok session req env db :
  session_ok session → db_ok db → db_ok (handle session req env db).2.
Proof.
  intros Hs Hdb. destruct req as [sf af|json|id|id json|id]; simpl.
  - done.
  - destruct (create_ticket_cases session json env db)
      as [(t & d & p & _ & _ & _ & _ & _ & _ & ->) | [-> _]]; [| done].
    apply db_ok_insert; [done | by left].
  - destruct (assign_self_effect session id env db)
      as [-> | (ticket & Hl & _ & Ha & ->)]; [done |].
    apply db_ok_insert; [done |]. right. eexists. split; [done |].
    by apply is_admin_name.
  - destruct (update_status_effect session id json env db)
      as [-> | (ticket & s & Hl & ->)]; [done |].
    apply db_ok_insert; [done |]. exact (Hdb id ticket Hl).
  - destruct (delete_ticket_effect session id env db) as [-> | ->]; [done |].
    by apply db_ok_delete.
Qed.

Lemma transition_ok db db' : transition db db' → db_ok db → db_ok db'.
Proof.
  intros [session req env Hs | env] Hdb.
  - by apply handle_ok.
  - by apply create_sample_tickets_ok.
Qed.

Lemma reachable_ok db : reachable db → db_ok db.
Proof.
  unfold reachable. revert db. apply rtc_ind_r.
  - intros id ticket Hl. by rewrite lookup_empty in Hl.
  - intros db1 db2 _ Ht IH. by apply (transition_ok db1).
Qed.

(** On a table satisfying the invariant, the truthiness test of
    [assign_self] is the test for NULL. *)
Lemma assigned_not_null (db : gmap Z Ticket) id ticket :
  db_ok db → db !! id = Some ticket →
  assigned ticket = true ↔ assigned_admin ticket ≠ None.
Proof.
  intros Hdb Hl. unfold assigned.
  destruct (Hdb _ _ Hl) as [-> | (who & -> & Hin)]; [done |].
  split; [done | intros _].
  destruct who; [| done]. exfalso. revert Hin. by_eval.
Qed.

Lemma seeded_reachable : reachable seeded.
Proof. apply rtc_once. apply transition_seed. Qed.

(** ** Self-assign *)

(** C5: on a table the service can be in, Self-assign by an admin on an
    existing ticket whose [assigned_admin] is not NULL is answered 400
    and returns the table as it was; when [assigned_admin] is NULL (and
    the commit goes through) the ticket's [assigned_admin] becomes the
    acting admin's name, its [updated_at] the current time, its other
    columns stay, and the answer is 200 with the updated ticket. *)
Theorem assign_self_spec db session ticket_id ticket env :
  reachable db →
  is_admin session = true →
  db !! ticket_id = Some ticket →
  (assigned_admin ticket ≠ None →
     assign_self session ticket_id env db =
       ((JErrors [lit "Ticket is already assigned"], 400), db)) ∧
  (assigned_admin ticket = None →
     commit_ok env = true →
     let ticket' := with_assignment ticket (name (current_user session))
                      (utcnow env 0%nat) in
     assign_self session ticket_id env db =
       ((JTicket (to_dict ticket_id ticket'), 200),
        <[ticket_id := ticket']> db)).
Proof.
  intros Hr Hadm Hl. apply reachable_ok in Hr.
  pose proof (assigned_not_null db ticket_id ticket Hr Hl) as Hnull.
  unfold assign_self. rewrite Hadm, Hl. cbn [negb]. split.
  - intros Hne. apply Hnull in Hne. by rewrite Hne.
  - intros Hnone Hc. destruct (assigned ticket) eqn:Ha.
    + destruct Hnull as [Hnull _]. by destruct Hnull.
    + unfold commit. by rewrite Hc.
Qed.

Lemma assign_self_spec_witness :
  assign_self admin2_session 2 env0 seeded =
    ((JErrors [lit "Ticket is already assigned"], 400), seeded) ∧
  (assign_self admin2_session 1 env0 seeded).1.2 = 200 ∧
  (assigned_admin <$> (assign_self admin2_session 1 env0 seeded).2 !! 1) =
    Some (Some (lit "Admin2")).
Proof.
  split.
  - edestruct (assign_self_spec seeded admin2_session 2) as [H _];
      [exact seeded_reachable | reflexivity | reflexivity |].
    apply H. discriminate.
  - edestruct (assign_self_spec seeded admin2_session 1) as [_ H];
      [exact seeded_reachable | reflexivity | reflexivity |].
    rewrite H; [| reflexivity | reflexivity].
    split; [reflexivity |]. cbn [snd]. by rewrite lookup_insert_eq.
Defined.

(** C8: across any one operation on a table the service can be in, a
    ticket that is there before and after keeps its [assigned_admin] if
    it had one (it is neither replaced nor cleared), and a NULL
    [assigned_admin] stays NULL or becomes the name of a listed
    admin. *)
Theorem assigned_admin_write_once db db' id ticket ticket' :
  reachable db →
  transition db db' →
  db !! id = Some ticket →
  db' !! id = Some ticket' →
  (∀ who, assigned_admin ticket = Some who →
          assigned_admin ticket' = Some who) ∧
  (assigned_admin ticket = None →
     assigned_admin ticket' = None ∨
     ∃ who, who ∈ ADMINS ∧ assigned_admin ticket' = Some who).
Proof.
  intros Hr Ht Hl Hl'. apply reachable_ok in Hr.
  assert (ticket' = ticket ∨
          (assigned_admin ticket' = assigned_admin ticket) ∨
          (assigned_admin ticket = None ∧
           ∃ who, who ∈ ADMINS ∧ assigned_admin ticket' = Some who))
    as Hcases.
  { destruct Ht as [session req env Hs | env].
    - destruct req as [sf af|json|tid|tid json|tid]; simpl in Hl'.
      + left. congruence.
      + destruct (create_ticket_cases session json env db)
          as [(t & d & p & _ & _ & _ & _ & _ & _ & Hc) | [Hc _]];
          rewrite Hc in Hl'; [| left; congruence].
        simpl in Hl'. rewrite (insert_fresh_lookup _ _ _ _ Hl) in Hl'.
        left. congruence.
      + destruct (assign_self_effect session tid env db)
          as [Hc | (ticket0 & Hl0 & Ha & Hadm & Hc)];
          rewrite Hc in Hl'; [left; congruence |].
        destruct (decide (tid = id)) as [->|Hne].
        * rewrite lookup_insert_eq in Hl'. injection Hl' as <-.
          rewrite Hl in Hl0. injection Hl0 as <-.
          right; right. split.
          -- destruct (assigned_admin ticket) eqn:Ea; [| done].
             assert (assigned ticket = true) as Ha'
               by (apply (assigned_not_null db id); [done | done | by rewrite Ea]).
             congruence.
          -- eexists. split; [by apply is_admin_name | done].
        * rewrite lookup_insert_ne in Hl' by done. left. congruence.
      + destruct (update_status_effect session tid json env db)
          as [Hc | (ticket0 & s & Hl0 & Hc)];
          rewrite Hc in Hl'; [left; congruence |].
        destruct (decide (tid = id)) as [->|Hne].
        * rewrite lookup_insert_eq in Hl'. injection Hl' as <-.
          rewrite Hl in Hl0. injection Hl0 as <-. right; left. done.
        * rewrite lookup_insert_ne in Hl' by done. left. congruence.
      + destruct (delete_ticket_effect session tid env db) as [Hc | Hc];
          rewrite Hc in Hl'; [left; congruence |].
        apply lookup_delete_Some in Hl' as [_ Hl']. left. congruence.
    - rewrite (create_sample_tickets_lookup env db id ticket Hl) in Hl'.
      left. congruence. }
  destruct Hcases as [-> | [-> | (Hn & who & Hin & Hs)]].
  - split; [done | by left].
  - split; [done | by left].
  - split; [congruence | right; eauto].
Qed.

Lemma assigned_admin_write_once_witness :
  ∃ who, who ∈ ADMINS ∧
    assigned_admin <$> (handle admin2_session (AssignSelf 1) env0 seeded).2 !! 1
      = Some (Some who).
Proof.
  edestruct (assigned_admin_write_once seeded
               (handle admin2_session (AssignSelf 1) env0 seeded).2 1)
    as [_ H].
  - exact seeded_reachable.
  - apply transition_request.
    apply set_role_session_ok, session_ok_empty.
  - reflexivity.
  - vm_compute. reflexivity.
  - destruct H as [H | (who & Hin & H)]; [reflexivity | discriminate H |].
    exists who. split; [exact Hin |]. vm_compute in H. vm_compute.
    by rewrite H.
Defined.

(** ** Update status *)

Lemma field_truthy json key v : field json key = Some v → truthy json = true.
Proof.
  destruct json as [| | | | | |d]; try discriminate. simpl. intros Hl.
  destruct (size d) eqn:Hs; [| done].
  apply map_size_empty_inv in Hs. subst d. by rewrite lookup_empty in Hl.
Qed.

(** The handler on a parsed document that is falsy or a JSON object,
    for an admin and an existing ticket: 400 with the table as it was
    when the document has no status field or when the field is not one
    of open, in_progress, closed; when it is one of them (and the
    commit goes through) the ticket gets that status and a fresh
    [updated_at], whatever its status was before. *)
Lemma update_status_spec db session ticket_id ticket json env :
  is_admin session = true →
  db !! ticket_id = Some ticket →
  (truthy json = false ∨ (∃ d, json = PDict d) →
   field json (lit "status") = None →
     update_status session ticket_id json env db =
       ((JErrors [lit "Status is required"], 400), db)) ∧
  (∀ v, field json (lit "status") = Some v →
        (∀ s, s ∈ valid_statuses → v ≠ PStr s) →
     update_status session ticket_id json env db =
       ((JErrors [status_invalid], 400), db)) ∧
  (∀ s, field json (lit "status") = Some (PStr s) →
        s ∈ valid_statuses →
        commit_ok env = true →
     let ticket' := with_status ticket s (utcnow env 0%nat) in
     update_status session ticket_id json env db =
       ((JTicket (to_dict ticket_id ticket'), 200),
        <[ticket_id := ticket']> db)).
Proof.
  intros Hadm Hl. unfold update_status. rewrite Hadm, Hl. cbn [negb].
  split_and!.
  - intros [Hf | (d & ->)] Hnone.
    + by rewrite Hf.
    + simpl in Hnone. unfold py_in, mbind, result_bind.
      rewrite Hnone. destruct (truthy (PDict d)); done.
  - intros v Hv Hout.
    rewrite (field_truthy _ _ _ Hv). cbn [negb].
    destruct json as [| | | | | |d]; try discriminate. simpl in Hv.
    unfold py_in, getitem, mbind, result_bind. rewrite Hv.
    rewrite bool_decide_eq_true_2 by eauto. cbn [negb].
    assert (in_strs v valid_statuses = false) as ->; [| done].
    apply not_true_iff_false. rewrite in_strs_true.
    intros (s & Hin & ->). by apply (Hout s).
  - intros s Hv Hin Hc.
    rewrite (field_truthy _ _ _ Hv). cbn [negb].
    destruct json as [| | | | | |d]; try discriminate. simpl in Hv.
    unfold py_in, getitem, mbind, result_bind. rewrite Hv.
    rewrite bool_decide_eq_true_2 by eauto. cbn [negb].
    assert (in_strs (PStr s) valid_statuses = true) as ->
      by (apply in_strs_true; eauto).
    unfold column_str, commit. rewrite Hc. done.
Qed.

Lemma update_status_spec_witness :
  update_status admin2_session 5 PNone env0 seeded =
    ((JErrors [lit "Status is required"], 400), seeded) ∧
  update_status admin2_session 5 (status_body (PStr (lit "done"))) env0 seeded =
    ((JErrors [status_invalid], 400), seeded) ∧
  (status <$> seeded !! 5) = Some (lit "closed") ∧
  (status <$> (update_status admin2_session 5 (status_body (PStr (lit "open")))
                 env0 seeded).2 !! 5) = Some (lit "open").
Proof.
  split_and!.
  - edestruct (update_status_spec seeded admin2_session 5) as (H & _ & _);
      [reflexivity | reflexivity |].
    apply H; [left |]; reflexivity.
  - edestruct (update_status_spec seeded admin2_session 5) as (_ & H & _);
      [reflexivity | reflexivity |].
    apply (H (PStr (lit "done"))); [reflexivity |].
    intros s Hin [= <-]. revert Hin. by_eval.
  - reflexivity.
  - edestruct (update_status_spec seeded admin2_session 5) as (_ & _ & H);
      [reflexivity | reflexivity |].
    rewrite (H (lit "open")); [| reflexivity | apply list_elem_of_here
                              | reflexivity].
    cbn [snd]. by rewrite lookup_insert_eq.
Defined.

(** A body that is a JSON number has no status field, yet the request
    is not answered 400: the membership test on the number raises and
    the 500 handler answers. *)
Lemma update_status_number_body :
  is_admin admin2_session = true ∧
  is_Some (seeded !! 5) ∧
  field (PInt 5) (lit "status") = None ∧
  update_status admin2_session 5 (PInt 5) env0 seeded =
    (internal_error, seeded) ∧
  (update_status admin2_session 5 (PInt 5) env0 seeded).1.2 ≠ 400.
Proof.
  split_and!; [reflexivity | by eexists | reflexivity | reflexivity |].
  vm_compute. discriminate.
Qed.

(** ** Delete and List *)

(** Every listed ticket is a row of the table. *)
Lemma get_tickets_listed status_filter admin_filter db d :
  d ∈ listed (get_tickets status_filter admin_filter db) →
  ∃ id ticket, db !! id = Some ticket ∧ d = to_dict id ticket.
Proof.
  unfold get_tickets, listed. cbn [fst].
  intros Hin. apply list_elem_of_In, in_map_iff in Hin
    as ([id ticket] & <- & Hin).
  apply list_elem_of_In in Hin. rewrite merge_sort_Permutation in Hin.
  exists id, ticket. split; [| done].
  apply elem_of_map_to_list.
  destruct (truthy (PStr admin_filter)), (truthy (PStr status_filter));
    repeat (apply list_elem_of_In, filter_In in Hin as [Hin _];
            apply list_elem_of_In in Hin);
    done.
Qed.

(** Without filters, every row of the table is listed. *)
Lemma get_tickets_all db id ticket :
  db !! id = Some ticket →
  to_dict id ticket ∈ listed (get_tickets (lit "") (lit "") db).
Proof.
  intros Hl. unfold get_tickets, listed. cbn [fst truthy length Nat.eqb negb lit
    list_ascii_of_string map].
  apply list_elem_of_In, in_map_iff. exists (id, ticket). split; [done |].
  apply list_elem_of_In. rewrite merge_sort_Permutation.
  by apply elem_of_map_to_list.
Qed.

(** The handler once the lookup has answered; it does not look at the
    session. A key that is not in the table gives 404 with body
    {'message': 'Resource not found'} and the table unchanged. A key
    that is in the table (when the commit goes through) gives 200, the
    row is removed, and no List response computed afterwards, whatever
    its filters, contains a ticket with that id; before the deletion
    the unfiltered List did contain it. *)
Lemma delete_ticket_spec session ticket_id env db :
  (db !! ticket_id = None →
     delete_ticket session ticket_id env db = (not_found, db) ∧
     not_found = (JMessage (lit "Resource not found"), 404)) ∧
  (∀ ticket,
     db !! ticket_id = Some ticket →
     commit_ok env = true →
     delete_ticket session ticket_id env db =
       ((JMessage (lit "Ticket deleted successfully"), 200),
        delete ticket_id db) ∧
     to_dict ticket_id ticket ∈ listed (get_tickets (lit "") (lit "") db) ∧
     ∀ status_filter admin_filter d,
       d ∈ listed (get_tickets status_filter admin_filter
                     (delete ticket_id db)) →
       d_id d ≠ ticket_id).
Proof.
  split.
  - intros Hl. unfold delete_ticket. rewrite Hl. done.
  - intros ticket Hl Hc. split_and!.
    + unfold delete_ticket, commit. rewrite Hl, Hc. done.
    + by apply get_tickets_all.
    + intros sf af d Hin.
      apply get_tickets_listed in Hin as (id & t & Hd & ->).
      apply lookup_delete_Some in Hd as [Hne _]. simpl. congruence.
Qed.

Lemma delete_ticket_spec_witness :
  delete_ticket bob_session 9 env0 seeded =
    ((JMessage (lit "Resource not found"), 404), seeded) ∧
  (delete_ticket bob_session 3 env0 seeded).1.2 = 200 ∧
  (delete_ticket admin2_session 3 env0 seeded).1.2 = 200 ∧
  ∀ d, d ∈ listed (get_tickets (lit "") (lit "")
                     (delete_ticket bob_session 3 env0 seeded).2) →
       d_id d ≠ 3.
Proof.
  split_and!.
  - destruct (delete_ticket_spec bob_session 9 env0 seeded) as [H _].
    destruct H as [H _]; [reflexivity |]. exact H.
  - destruct (delete_ticket_spec bob_session 3 env0 seeded) as [_ H].
    edestruct H as (-> & _ & _); reflexivity.
  - destruct (delete_ticket_spec admin2_session 3 env0 seeded) as [_ H].
    edestruct H as (-> & _ & _); reflexivity.
  - destruct (delete_ticket_spec bob_session 3 env0 seeded) as [_ H].
    edestruct H as (-> & _ & Hlist); [reflexivity | reflexivity |].
    intros d. apply Hlist.
Defined.

(** * Further properties *)

(** ** Validation and Create *)

(** [validate_ticket_data] returns only on bodies it can work on. *)
Lemma validate_ticket_data_ok_typed data errors :
  validate_ticket_data data = Ok errors → well_typed data.
Proof.
  unfold well_typed, validate_ticket_data, get, strip_method, mbind,
    result_bind.
  destruct data as [| | | | | |d]; try discriminate.
  destruct (default (PStr (lit "")) (d !! lit "title"))
    as [| | | |t| |] eqn:Et; try discriminate.
  destruct (default (PStr (lit "")) (d !! lit "description"))
    as [| | | |ds| |] eqn:Ed; try discriminate.
  intros _. by exists d, t, ds.
Qed.

(** [validate_ticket_data] returns an error list exactly on the JSON
    objects whose title and description are strings or absent; on every
    other value it raises [AttributeError]. *)
Theorem validate_ticket_data_returns data :
  ((∃ errors, validate_ticket_data data = Ok errors) ↔ well_typed data) ∧
  (∀ e, validate_ticket_data data = Raise e → e = AttributeError).
Proof.
  split; [split |].
  - intros [errors Hv]. by apply (validate_ticket_data_ok_typed data errors).
  - intros (d & t & ds & -> & Ht & Hd).
    unfold validate_ticket_data, get, mbind, result_bind.
    rewrite Ht, Hd. unfold strip_method. eauto.
  - unfold validate_ticket_data, get, strip_method, mbind, result_bind.
    intros e.
    destruct data as [| | | | | |d]; try by intros [= <-].
    destruct (default (PStr (lit "")) (d !! lit "title"));
      try by intros [= <-].
    destruct (default (PStr (lit "")) (d !! lit "description"));
      by intros [= <-].
Qed.

(** A body that passes all three checks gets the empty error list. *)
Lemma validate_ticket_data_accepts (d : gmap pystr pyval) (t ds : pystr) :
  default (PStr (lit "")) (d !! lit "title") = PStr t →
  default (PStr (lit "")) (d !! lit "description") = PStr ds →
  3 ≤ len (strip t) ≤ 120 →
  1 ≤ len (strip ds) ≤ 1000 →
  in_strs (default (PStr (lit "")) (d !! lit "priority")) valid_priorities
    = true →
  validate_ticket_data (PDict d) = Ok [].
Proof.
  intros Ht Hd Hbt Hbd Hp.
  unfold validate_ticket_data, get, mbind, result_bind.
  rewrite Ht, Hd, Hp. unfold strip_method, truthy.
  rewrite !Z.gtb_ltb.
  destruct (Nat.eqb_spec (length (strip t)) 0);
    destruct (Z.ltb_spec (len (strip t)) 3);
    destruct (Z.ltb_spec 120 (len (strip t)));
    destruct (Nat.eqb_spec (length (strip ds)) 0);
    destruct (Z.ltb_spec (len (strip ds)) 1);
    destruct (Z.ltb_spec 1000 (len (strip ds)));
    cbn [negb orb app]; first [reflexivity | unfold len in *; lia].
Qed.

(** Create accepts every valid body: for a reporter, a JSON object
    whose trimmed title has 3 to 120 characters, whose trimmed
    description has 1 to 1000 and whose priority is in the enumeration
    is answered 201 when the commit goes through; the row is stored
    under the next key, with the title and description as sent. *)
Theorem create_ticket_accepts (session : Session) (d : gmap pystr pyval)
    (t ds p : pystr) (env : Env) (db : gmap Z Ticket) :
  is_reporter session = true →
  d !! lit "title" = Some (PStr t) →
  d !! lit "description" = Some (PStr ds) →
  d !! lit "priority" = Some (PStr p) →
  3 ≤ len (strip t) ≤ 120 →
  1 ≤ len (strip ds) ≤ 1000 →
  p ∈ valid_priorities →
  commit_ok env = true →
  let ticket := new_ticket env t ds p (name (current_user session)) in
  create_ticket session (PDict d) env db =
    ((JTicket (to_dict (next_id db) ticket), 201),
     <[next_id db := ticket]> db).
Proof.
  intros Hr Ht Hd Hp Hbt Hbd Hin Hc. unfold create_ticket.
  rewrite Hr. cbn [negb].
  assert (truthy (PDict d) = true) as ->.
  { apply (field_truthy _ (lit "title") (PStr t)). exact Ht. }
  cbn [negb].
  rewrite (validate_ticket_data_accepts d t ds);
    [| by rewrite Ht | by rewrite Hd | done | done
     | rewrite Hp; apply in_strs_true; eauto].
  unfold getitem, mbind, result_bind, column_str, commit.
  rewrite Ht, Hd, Hp, Hc. reflexivity.
Qed.

Lemma create_ticket_accepts_witness :
  (create_ticket bob_session good_data env0 seeded).1.2 = 201 ∧
  (title <$> (create_ticket bob_session good_data env0 seeded).2 !! 6) =
    Some (lit "Printer jam").
Proof.
  unfold good_data, sample_data.
  rewrite (create_ticket_accepts bob_session _ (lit "Printer jam")
             (lit "Tray 2") (lit "high") env0 seeded);
    [| reflexivity | reflexivity | reflexivity | reflexivity
     | vm_compute; split; discriminate | vm_compute; split; discriminate
     | by_eval | reflexivity].
  split; [reflexivity |]. cbn [snd].
  change (next_id seeded) with 6. by rewrite lookup_insert_eq.
Defined.

(** A reporter's Create on a body that is truthy but is not an object
    with string (or absent) title and description -- a number, a
    string, a list, an object whose title is a number -- is answered by
    the 500 handler and leaves the table as it was. *)
Theorem create_ticket_ill_typed session json env db :
  is_reporter session = true →
  truthy json = true →
  ¬ well_typed json →
  create_ticket session json env db = (App.internal_error, db).
Proof.
  intros Hr Ht Hw. unfold create_ticket. rewrite Hr, Ht. cbn [negb].
  destruct (validate_ticket_data json) as [errors|e] eqn:Hv; [| done].
  exfalso. apply Hw. by apply (validate_ticket_data_ok_typed json errors).
Qed.

Lemma create_ticket_ill_typed_witness :
  create_ticket bob_session (PList [PStr (lit "title")]) env0 seeded =
    (App.internal_error, seeded) ∧
  create_ticket bob_session
      (sample_data (PInt 5) (PStr (lit "d")) (PStr (lit "low"))) env0 seeded =
    (App.internal_error, seeded).
Proof.
  split.
  - apply create_ticket_ill_typed; [reflexivity | reflexivity |].
    intros (d & t & ds & Hd & _). discriminate Hd.
  - apply create_ticket_ill_typed; [reflexivity | reflexivity |].
    intros (d & t & ds & [= <-] & Ht & _). vm_compute in Ht.
    discriminate Ht.
Defined.

(** ** All handlers *)


(** No partial success: a request that is not answered 200 or 201
    returns the table it received. *)
Theorem handle_failure_unchanged session req env db :
  (handle session req env db).1.2 ≠ 200 →
  (handle session req env db).1.2 ≠ 201 →
  (handle session req env db).2 = db.
Proof.
  destruct req; handler_cases; done.
Qed.

Lemma handle_failure_unchanged_witness :
  (handle bob_session (AssignSelf 1) env0 seeded).2 = seeded ∧
  (handle admin2_session (UpdateStatus 1 (PInt 5)) env0 seeded).2 = seeded ∧
  (handle admin2_session (DeleteTicket 1)
     {| utcnow := λ _, 0; commit_ok := false |} seeded).2 = seeded.
Proof.
  split_and!; apply handle_failure_unchanged; vm_compute; discriminate.
Defined.

(** A request writes at most the row of its target: every other key
    holds after the request what it held before. *)
Theorem handle_frame session req env db id :
  target req db ≠ Some id →
  (handle session req env db).2 !! id = db !! id.
Proof.
  intros Hne. destruct req as [sf af|json|tid|tid json|tid]; simpl in *.
  - done.
  - destruct (create_ticket_cases session json env db)
      as [(t & d & p & _ & _ & _ & _ & _ & _ & ->) | [-> _]]; [| done].
    simpl. rewrite lookup_insert_ne; [done | congruence].
  - destruct (assign_self_effect session tid env db)
      as [-> | (ticket & _ & _ & _ & ->)]; [done |].
    rewrite lookup_insert_ne; [done | congruence].
  - destruct (update_status_effect session tid json env db)
      as [-> | (ticket & s & _ & ->)]; [done |].
    rewrite lookup_insert_ne; [done | congruence].
  - destruct (delete_ticket_effect session tid env db) as [-> | ->]; [done |].
    rewrite lookup_delete_ne; [done | congruence].
Qed.

Lemma handle_frame_witness :
  (handle admin2_session (DeleteTicket 3) env0 seeded).2 !! 2 = seeded !! 2 ∧
  (handle bob_session (CreateTicket good_data) env0 seeded).2 !! 5 =
    seeded !! 5.
Proof.
  split; apply handle_frame; vm_compute; discriminate.
Defined.

(** The API never rewrites the columns fixed at creation: a ticket that
    is in the table before and after a request has the same title,
    description, priority, reporter name and creation time. *)
Theorem handle_keeps_created_columns session req env db id ticket ticket' :
  db !! id = Some ticket →
  (handle session req env db).2 !! id = Some ticket' →
  title ticket' = title ticket ∧
  description ticket' = description ticket ∧
  priority ticket' = priority ticket ∧
  reporter_name ticket' = reporter_name ticket ∧
  created_at ticket' = created_at ticket.
Proof.
  intros Hl Hl'.
  destruct req as [sf af|json|tid|tid json|tid]; simpl in Hl'.
  - by simplify_eq.
  - destruct (create_ticket_cases session json env db)
      as [(t & d & p & _ & _ & _ & _ & _ & _ & Hc) | [Hc _]];
      rewrite Hc in Hl'; [| by simplify_eq].
    simpl in Hl'. rewrite (insert_fresh_lookup _ _ _ _ Hl) in Hl'.
    by simplify_eq.
  - destruct (assign_self_effect session tid env db)
      as [Hc | (ticket0 & Hl0 & _ & _ & Hc)];
      rewrite Hc in Hl'; [by simplify_eq |].
    destruct (decide (tid = id)) as [->|Hne].
    + rewrite lookup_insert_eq in Hl'. by simplify_eq.
    + rewrite lookup_insert_ne in Hl' by done. by simplify_eq.
  - destruct (update_status_effect session tid json env db)
      as [Hc | (ticket0 & s & Hl0 & Hc)];
      rewrite Hc in Hl'; [by simplify_eq |].
    destruct (decide (tid = id)) as [->|Hne].
    + rewrite lookup_insert_eq in Hl'. by simplify_eq.
    + rewrite lookup_insert_ne in Hl' by done. by simplify_eq.
  - destruct (delete_ticket_effect session tid env db) as [Hc | Hc];
      rewrite Hc in Hl'; [by simplify_eq |].
    apply lookup_delete_Some in Hl' as [_ Hl']. by simplify_eq.
Qed.

Lemma handle_keeps_created_columns_witness :
  ∃ ticket',
    (handle admin2_session (UpdateStatus 1 (status_body (PStr (lit "closed"))))
       env0 seeded).2 !! 1 = Some ticket' ∧
    status ticket' = lit "closed" ∧
    title ticket' = lit "Website login not working" ∧
    reporter_name ticket' = lit "Alice".
Proof.
  eexists. split; [vm_compute; reflexivity |].
  split; [reflexivity |].
  edestruct (handle_keeps_created_columns admin2_session
               (UpdateStatus 1 (status_body (PStr (lit "closed")))) env0
               seeded 1) as (Ht & _ & _ & Hr & _);
    [vm_compute; reflexivity | vm_compute; reflexivity |].
  split; [exact Ht | exact Hr].
Defined.

(** ** Invariants of the stored rows *)

Lemma next_id_pos (db : gmap Z Ticket) : 1 ≤ next_id db.
Proof.
  unfold next_id.
  assert (∀ l : list Z, 0 ≤ foldr Z.max 0 l) as Hmax.
  { induction l; simpl; lia. }
  specialize (Hmax (map fst (map_to_list db))). lia.
Qed.

(** A reporter session carries a listed reporter's name. *)
Lemma is_reporter_name session :
  session_ok session → is_reporter session = true →
  name (current_user session) ∈ REPORTERS.
Proof.
  unfold is_reporter, current_user. simpl. intros Hok Hrep.
  apply bool_decide_eq_true in Hrep.
  destruct Hok as [[Hn _] | [(n & Hn & Hin & _) | (n & _ & _ & Hr)]].
  - rewrite Hn. apply list_elem_of_here.
  - by rewrite Hn.
  - rewrite Hr in Hrep. discriminate.
Qed.

(** When [validate_ticket_data] reports nothing, the priority is in the
    enumeration. *)
Lemma validate_ticket_data_priority (d : gmap pystr pyval) :
  validate_ticket_data (PDict d) = Ok [] →
  in_strs (default (PStr (lit "")) (d !! lit "priority")) valid_priorities
    = true.
Proof.
  unfold validate_ticket_data, get, strip_method, mbind, result_bind.
  destruct (default (PStr (lit "")) (d !! lit "title")); try discriminate.
  destruct (default (PStr (lit "")) (d !! lit "description"));
    try discriminate.
  destruct (in_strs _ valid_priorities); [done |].
  cbn [negb]. intros [= Hv]. by apply app_eq_nil in Hv as [_ [=]].
Qed.

(** A status that [update_status] stores is in the enumeration. *)
Lemma update_status_effect_valid session ticket_id json env db :
  (update_status session ticket_id json env db).2 = db ∨
  ∃ ticket s,
    db !! ticket_id = Some ticket ∧ s ∈ valid_statuses ∧
    (update_status session ticket_id json env db).2 =
      <[ticket_id := with_status ticket s (utcnow env 0%nat)]> db.
Proof.
  unfold update_status.
  destruct (is_admin session); cbn [negb]; [| by left].
  destruct (db !! ticket_id) as [ticket|]; [| by left].
  destruct (if negb (truthy json) then _ else _) as [[|]|]; try by left.
  destruct (getitem json (lit "status")) as [new_status|]; [| by left].
  destruct (in_strs new_status valid_statuses) eqn:Hin; [| by left].
  cbn [negb]. unfold mbind, result_bind, commit.
  destruct new_status as [| | | |s| |]; simpl; try by left.
  destruct (commit_ok env); simpl; [| by left].
  right. exists ticket, s. split_and!; [done | | done].
  apply in_strs_true in Hin as (s' & Hs' & [= ->]). done.
Qed.

Lemma rows_ok_insert (db : gmap Z Ticket) id ticket :
  rows_ok db → row_ok id ticket → rows_ok (<[id := ticket]> db).
Proof.
  intros Hdb Ht id' ticket' Hl.
  destruct (decide (id = id')) as [<-|Hne].
  - rewrite lookup_insert_eq in Hl. by injection Hl as <-.
  - rewrite lookup_insert_ne in Hl by done. by apply Hdb.
Qed.

Lemma rows_ok_delete (db : gmap Z Ticket) id :
  rows_ok db → rows_ok (delete id db).
Proof.
  intros Hdb id' ticket' Hl. apply lookup_delete_Some in Hl as [_ Hl].
  by apply Hdb.
Qed.

Lemma handle_rows_ok session req env db :
  session_ok session → rows_ok db → rows_ok (handle session req env db).2.
Proof.
  intros Hs Hdb. destruct req as [sf af|json|id|id json|id]; simpl.
  - done.
  - destruct (create_ticket_cases session json env db)
      as [(t & d & p & Hr & Hv & Ht & Hd & Hp & _ & ->) | [-> _]]; [| done].
    apply rows_ok_insert; [done |].
    destruct json as [| | | | | |m]; try discriminate. simpl in Ht, Hd, Hp.
    destruct (m !! lit "title") as [vt|] eqn:Et; [| discriminate].
    destruct (m !! lit "description") as [vd|] eqn:Ed; [| discriminate].
    destruct (m !! lit "priority") as [vp|] eqn:Ep; [| discriminate].
    simplify_eq.
    destruct (validate_ticket_data_passes m t d) as [Hb1 Hb2];
      [by rewrite Et | by rewrite Ed | done |].
    pose proof (validate_ticket_data_priority m Hv) as Hin.
    rewrite Ep in Hin. apply in_strs_true in Hin as (p' & Hin & [= <-]).
    pose proof (is_reporter_name session Hs Hr) as Hname.
    unfold row_ok. cbn [new_ticket title description priority status
      reporter_name created_at updated_at].
    split_and!; first [apply next_id_pos | by_eval | done | lia | by eexists].
  - destruct (assign_self_effect session id env db)
      as [-> | (ticket & Hl & _ & _ & ->)]; [done |].
    apply rows_ok_insert; [done |].
    destruct (Hdb id ticket Hl) as (? & ? & ? & ? & ? & ? & ? & ?).
    unfold row_ok. simpl. split_and!; first [done | by eexists | lia].
  - destruct (update_status_effect_valid session id json env db)
      as [-> | (ticket & s & Hl & Hin & ->)]; [done |].
    apply rows_ok_insert; [done |].
    destruct (Hdb id ticket Hl) as (? & ? & ? & ? & ? & ? & ? & ?).
    unfold row_ok. simpl. split_and!; first [done | by eexists | lia].
  - destruct (delete_ticket_effect session id env db) as [-> | ->]; [done |].
    by apply rows_ok_delete.
Qed.

Lemma create_sample_tickets_rows_ok env db :
  rows_ok db → rows_ok (create_sample_tickets env db).
Proof.
  intros Hdb. unfold create_sample_tickets, commit.
  destruct (commit_ok env); [| done].
  unfold sample_tickets, add_sample. cbn [foldl fst snd].
  repeat (apply rows_ok_insert;
          [| unfold row_ok, sample; cbn [title description priority status
               reporter_name created_at updated_at];
             split_and!;
             first [ apply next_id_pos | by_eval | by eexists
                   | vm_compute; split; discriminate ] ]).
  done.
Qed.

Lemma reachable_rows_ok db : reachable db → rows_ok db.
Proof.
  unfold reachable. revert db. apply rtc_ind_r.
  - intros id ticket Hl. by rewrite lookup_empty in Hl.
  - intros db1 db2 _ [session req env Hs | env] IH.
    + by apply handle_rows_ok.
    + by apply create_sample_tickets_rows_ok.
Qed.

(** In every table the service can be in, each ticket's status is one
    of open, in_progress, closed, its priority one of low, medium, high,
    and its reporter one of the listed reporters. *)
Theorem reachable_enumerations db id ticket :
  reachable db →
  db !! id = Some ticket →
  status ticket ∈ valid_statuses ∧
  priority ticket ∈ valid_priorities ∧
  reporter_name ticket ∈ REPORTERS.
Proof.
  intros Hr Hl.
  destruct (reachable_rows_ok db Hr id ticket Hl)
    as (_ & Hs & Hp & Hn & _).
  done.
Qed.

(** In every table the service can be in, each ticket's title has 3 to
    120 characters once trimmed and its description 1 to 1000 once
    trimmed; in particular neither is blank. *)
Theorem reachable_text_bounds db id ticket :
  reachable db →
  db !! id = Some ticket →
  3 ≤ len (strip (title ticket)) ≤ 120 ∧
  1 ≤ len (strip (description ticket)) ≤ 1000.
Proof.
  intros Hr Hl.
  destruct (reachable_rows_ok db Hr id ticket Hl)
    as (_ & _ & _ & _ & Ht & Hd & _).
  done.
Qed.

(** In every table the service can be in, keys are at least 1 and both
    timestamps of every ticket are set. *)
Theorem reachable_keys_timestamps db id ticket :
  reachable db →
  db !! id = Some ticket →
  1 ≤ id ∧ is_Some (created_at ticket) ∧ is_Some (updated_at ticket).
Proof.
  intros Hr Hl.
  destruct (reachable_rows_ok db Hr id ticket Hl)
    as (Hid & _ & _ & _ & _ & _ & Hc & Hu).
  done.
Qed.

Lemma reachable_enumerations_witness :
  ∃ ticket,
    seeded !! 2 = Some ticket ∧
    status ticket ∈ valid_statuses ∧
    priority ticket ∈ valid_priorities ∧
    reporter_name ticket ∈ REPORTERS.
Proof.
  eexists. split; [vm_compute; reflexivity |].
  apply (reachable_enumerations seeded 2);
    [exact seeded_reachable | vm_compute; reflexivity].
Defined.

Lemma reachable_text_bounds_witness :
  ∃ ticket,
    seeded !! 2 = Some ticket ∧
    3 ≤ len (strip (title ticket)) ≤ 120 ∧
    1 ≤ len (strip (description ticket)) ≤ 1000.
Proof.
  eexists. split; [vm_compute; reflexivity |].
  apply (reachable_text_bounds seeded 2);
    [exact seeded_reachable | vm_compute; reflexivity].
Defined.

Lemma reachable_keys_timestamps_witness :
  ∃ ticket,
    seeded !! 2 = Some ticket ∧
    1 ≤ 2 ∧ is_Some (created_at ticket) ∧ is_Some (updated_at ticket).
Proof.
  eexists. split; [vm_compute; reflexivity |].
  apply (reachable_keys_timestamps seeded 2);
    [exact seeded_reachable | vm_compute; reflexivity].
Defined.

(** ** How the operations compose *)

(** Create then Delete is a round trip: when Create answers 201, the
    key of the created ticket is the one in the response body, and
    deleting that key (by any session, when the commit goes through)
    gives back the table Create started from. *)
Theorem create_then_delete session session' json env env' db resp db' :
  create_ticket session json env db = (resp, db') →
  resp.2 = 201 →
  commit_ok env' = true →
  ∃ body,
    resp.1 = JTicket body ∧
    delete_ticket session' (d_id body) env' db' =
      ((JMessage (lit "Ticket deleted successfully"), 200), db).
Proof.
  intros Hc Hcode Hok.
  destruct (create_ticket_201 _ _ _ _ _ _ Hc Hcode)
    as (t & d & p & _ & _ & _ & _ & _ & _ & -> & ->).
  eexists. split; [reflexivity |]. cbn [to_dict d_id].
  unfold delete_ticket, commit. rewrite lookup_insert_eq, Hok.
  rewrite delete_insert_id; [done | apply next_id_fresh].
Qed.

Lemma create_then_delete_witness :
  ∃ body,
    (create_ticket bob_session good_data env0 seeded).1.1 = JTicket body ∧
    delete_ticket admin2_session (d_id body) env0
      (create_ticket bob_session good_data env0 seeded).2 =
      ((JMessage (lit "Ticket deleted successfully"), 200), seeded).
Proof.
  apply (create_then_delete bob_session admin2_session good_data env0 env0
           seeded (create_ticket bob_session good_data env0 seeded).1);
    reflexivity.
Defined.

(** Once a ticket has been deleted, every operation addressed to its
    key is answered 404 and changes nothing, whoever asks. *)
Theorem deleted_is_gone session session' ticket_id json env env' db resp db' :
  delete_ticket session ticket_id env db = (resp, db') →
  resp.2 = 200 →
  delete_ticket session' ticket_id env' db' = (App.not_found, db') ∧
  (is_admin session' = true →
     assign_self session' ticket_id env' db' = (App.not_found, db') ∧
     update_status session' ticket_id json env' db' = (App.not_found, db')).
Proof.
  unfold delete_ticket at 1. intros Hd Hcode.
  destruct (db !! ticket_id) as [ticket|]; [| by simplify_eq].
  unfold commit in Hd. destruct (commit_ok env); [| by simplify_eq].
  injection Hd as <- <-.
  unfold delete_ticket, assign_self, update_status.
  rewrite lookup_delete_eq. split; [done |]. by intros ->.
Qed.

Lemma deleted_is_gone_witness :
  delete_ticket bob_session 3 env0
    (delete_ticket admin2_session 3 env0 seeded).2 =
    (App.not_found, (delete_ticket admin2_session 3 env0 seeded).2).
Proof.
  apply (deleted_is_gone admin2_session bob_session 3 PNone env0 env0 seeded
           (delete_ticket admin2_session 3 env0 seeded).1);
    reflexivity.
Defined.

(** Self-assign is taken once: after an admin (under a session
    [set_role] can have produced) has been answered 200, a further
    Self-assign on the same ticket by any admin is answered 400 and
    changes nothing. *)
Theorem assign_self_twice session session' ticket_id env env' db resp db' :
  session_ok session →
  assign_self session ticket_id env db = (resp, db') →
  resp.2 = 200 →
  is_admin session' = true →
  assign_self session' ticket_id env' db' =
    ((JErrors [lit "Ticket is already assigned"], 400), db').
Proof.
  intros Hs Ha Hcode Hadm'. unfold assign_self at 1 in Ha.
  destruct (is_admin session) eqn:Hadm; cbn [negb] in Ha;
    [| by simplify_eq].
  destruct (db !! ticket_id) as [ticket|]; [| by simplify_eq].
  destruct (assigned ticket); [by simplify_eq |].
  unfold commit in Ha. destruct (commit_ok env); [| by simplify_eq].
  injection Ha as <- <-.
  unfold assign_self. rewrite Hadm', lookup_insert_eq. cbn [negb].
  destruct (assigned _) eqn:Ha'; [done | exfalso].
  unfold assigned in Ha'. cbn [assigned_admin] in Ha'.
  pose proof (is_admin_name session Hs Hadm) as Hin.
  change (default (lit "Alice") (user_name session))
    with (name (current_user session)) in Ha'.
  destruct (name (current_user session)); [| done].
  revert Hin. by_eval.
Qed.

Lemma assign_self_twice_witness :
  assign_self admin2_session 1 env0
    (assign_self admin2_session 1 env0 seeded).2 =
    ((JErrors [lit "Ticket is already assigned"], 400),
     (assign_self admin2_session 1 env0 seeded).2).
Proof.
  apply (assign_self_twice admin2_session admin2_session 1 env0 env0 seeded
           (assign_self admin2_session 1 env0 seeded).1).
  - apply set_role_session_ok, session_ok_empty.
  - reflexivity.
  - reflexivity.
  - reflexivity.
Defined.

(** ** List *)

Lemma truthy_str s : truthy (PStr s) = false ↔ s = [].
Proof. destruct s; simpl; split; intros; done. Qed.

(** The rows that the query of [get_tickets] keeps. *)
Lemma query_rows status_filter admin_filter (l : list (Z * Ticket)) r :
  r ∈ (let query := l in
       let query :=
         if truthy (PStr status_filter)
         then List.filter
                (fun r => bool_decide (status r.2 = status_filter)) query
         else query in
       if truthy (PStr admin_filter)
       then List.filter
              (fun r => bool_decide (assigned_admin r.2 = Some admin_filter))
              query
       else query) ↔
  r ∈ l ∧ passes status_filter admin_filter r.2.
Proof.
  unfold passes. cbn zeta.
  destruct (truthy (PStr status_filter)) eqn:Hs,
           (truthy (PStr admin_filter)) eqn:Ha;
    rewrite ?list_elem_of_In, ?filter_In, ?bool_decide_eq_true,
      <- ?list_elem_of_In;
    try apply truthy_str in Hs; try apply truthy_str in Ha;
    try (assert (status_filter ≠ []) by (intros ->; discriminate));
    try (assert (admin_filter ≠ []) by (intros ->; discriminate));
    intuition congruence.
Qed.

(** What List returns: a ticket is in the response exactly when it is a
    row of the table that passes the two filters, an empty filter
    passing every row; a ticket without an assigned admin passes no
    non-empty admin filter. *)
Theorem get_tickets_spec status_filter admin_filter db d :
  d ∈ listed (get_tickets status_filter admin_filter db) ↔
  ∃ id ticket,
    db !! id = Some ticket ∧ d = to_dict id ticket ∧
    passes status_filter admin_filter ticket.
Proof.
  unfold get_tickets, listed. cbn [fst].
  rewrite list_elem_of_In, in_map_iff. split.
  - intros ([id ticket] & <- & Hin). apply list_elem_of_In in Hin.
    rewrite merge_sort_Permutation in Hin.
    apply query_rows in Hin as [Hin Hp]. apply elem_of_map_to_list in Hin.
    eauto.
  - intros (id & ticket & Hl & -> & Hp). exists (id, ticket).
    split; [done |]. apply list_elem_of_In.
    rewrite merge_sort_Permutation. apply query_rows.
    split; [by apply elem_of_map_to_list | done].
Qed.

Lemma created_desc_total : Total created_desc.
Proof.
  intros [i1 t1] [i2 t2]. unfold created_desc, time_leb. simpl.
  destruct (created_at t1), (created_at t2); try (by left); try (by right).
  destruct (Z.leb_spec d0 d); [by left | right; apply Z.leb_le; lia].
Qed.

Lemma created_desc_trans : Transitive created_desc.
Proof.
  intros [i1 t1] [i2 t2] [i3 t3]. unfold created_desc, time_leb. simpl.
  destruct (created_at t1), (created_at t2), (created_at t3); try done.
  rewrite !Z.leb_le. lia.
Qed.

(** List is ordered newest first: of two tickets of a response, the one
    that comes first has a [created_at] that is not earlier (a missing
    [created_at] counting as earliest). *)
Theorem get_tickets_sorted status_filter admin_filter db :
  StronglySorted newest_first
    (listed (get_tickets status_filter admin_filter db)).
Proof.
  unfold get_tickets, listed. cbn [fst].
  pose proof created_desc_total as Htotal.
  pose proof created_desc_trans as Htrans.
  match goal with
  | |- context [merge_sort created_desc ?q] =>
      pose proof (StronglySorted_merge_sort created_desc q) as Hs;
      induction Hs as [| r l Hs IH Hall]
  end.
  - constructor.
  - simpl. constructor; [exact IH |].
    apply Forall_forall. intros d Hd.
    apply list_elem_of_In, in_map_iff in Hd as (r' & <- & Hin).
    rewrite Forall_forall in Hall.
    apply (Hall r'). by apply list_elem_of_In.
Qed.

Lemma NoDup_fst_filter (f : Z * Ticket → bool) (l : list (Z * Ticket)) :
  NoDup (map fst l) → NoDup (map fst (List.filter f l)).
Proof.
  induction l as [|r l IH]; simpl; [done |].
  intros [Hnin Hnd]%NoDup_cons. destruct (f r); simpl; [| by apply IH].
  apply NoDup_cons. split; [| by apply IH].
  intros Hin. apply Hnin.
  apply list_elem_of_In, in_map_iff in Hin as (r' & Heq & Hin).
  apply filter_In in Hin as [Hin _].
  apply list_elem_of_In, in_map_iff. eauto.
Qed.

Lemma map_fst_fmap (l : list (Z * Ticket)) : map fst l = l.*1.
Proof. induction l as [|r l IH]; [done |]. cbn. by rewrite <- IH. Qed.

(** List shows no ticket twice, and without filters it shows them all:
    the keys of a response are pairwise distinct, and the unfiltered
    response has as many tickets as the table has rows. *)
Theorem get_tickets_distinct status_filter admin_filter db :
  NoDup (map d_id (listed (get_tickets status_filter admin_filter db))) ∧
  length (listed (get_tickets (lit "") (lit "") db)) = size db.
Proof.
  split.
  - unfold get_tickets, listed. cbn [fst].
    rewrite map_map. cbn [to_dict d_id].
    change (map (λ x : Z * Ticket, x.1)) with (map (@fst Z Ticket)).
    rewrite map_fst_fmap, merge_sort_Permutation, <- map_fst_fmap.
    pose proof (NoDup_fst_map_to_list db) as Hnd.
    rewrite <- map_fst_fmap in Hnd.
    destruct (truthy (PStr status_filter)), (truthy (PStr admin_filter));
      auto using NoDup_fst_filter.
  - unfold get_tickets, listed. cbn.
    rewrite length_map, merge_sort_Permutation.
    apply length_map_to_list.
Qed.

(** ** The index page *)

Lemma count_partition (l : list (Z * Ticket)) :
  (∀ r, r ∈ l → status r.2 ∈ valid_statuses) →
  (length (List.filter (λ r, bool_decide (status r.2 = lit "open")) l) +
   (length (List.filter (λ r, bool_decide (status r.2 = lit "in_progress")) l) +
    (length (List.filter (λ r, bool_decide (status r.2 = lit "closed")) l) +
     0)))%nat = length l.
Proof.
  induction l as [|r l IH]; intros Hall; [done |].
  assert (∀ r', r' ∈ l → status r'.2 ∈ valid_statuses) as Hl
    by (intros r' Hr'; apply Hall; by right).
  specialize (IH Hl).
  assert (status r.2 ∈ valid_statuses) as Hr by (apply Hall; by left).
  unfold valid_statuses in Hr.
  rewrite !elem_of_cons in Hr. cbn [List.filter].
  destruct Hr as [-> | [-> | [-> | Hr]]];
    [| | | by apply elem_of_nil in Hr];
    repeat match goal with
           | |- context [bool_decide (?a = ?b)] =>
               let b := eval vm_compute in (bool_decide (a = b)) in
               change (bool_decide (a = b)) with b
           end;
    simpl; lia.
Qed.

(** The counts of the index page add up: in every table the service
    can be in, the numbers shown for open, in_progress and closed sum
    to the number of tickets, whatever filters the page is asked
    with. *)
Theorem index_counts_total status_filter admin_filter session db :
  reachable db →
  total_count (page_counts
                 (Pages.index status_filter admin_filter session db))
    = size db.
Proof.
  intros Hr. unfold Pages.index, page_counts, total_count, valid_statuses,
    Pages.count_status.
  cbn [map foldr snd]. rewrite <- length_map_to_list.
  apply count_partition. intros [id ticket] Hin.
  apply elem_of_map_to_list in Hin.
  by destruct (reachable_rows_ok db Hr id ticket Hin) as (_ & Hs & _).
Qed.

Lemma index_counts_total_witness :
  total_count (page_counts (Pages.index (lit "open") (lit "") bob_session
                              seeded)) = 5%nat.
Proof.
  rewrite (index_counts_total (lit "open") (lit "") bob_session seeded
             seeded_reachable).
  reflexivity.
Defined.

(** The index page and the API agree: the page shows the tickets of the
    List response for the same filters, in the same order; its
    dictionary has one entry per status of the enumeration, in order,
    and each count is the length of the List response filtered by that
    status alone. *)
Theorem index_agrees_with_api status_filter admin_filter session db :
  map (λ r, to_dict r.1 r.2)
      (page_tickets (Pages.index status_filter admin_filter session db)) =
    listed (get_tickets status_filter admin_filter db) ∧
  map fst (page_counts (Pages.index status_filter admin_filter session db)) =
    valid_statuses ∧
  Forall (λ c, c.2 = length (listed (get_tickets c.1 (lit "") db)))
         (page_counts (Pages.index status_filter admin_filter session db)).
Proof.
  split_and!; [reflexivity | reflexivity |].
  unfold Pages.index, page_counts, valid_statuses. cbn [map].
  repeat constructor; cbn [fst snd];
    unfold Pages.count_status, get_tickets, listed; cbn;
    by rewrite length_map, merge_sort_Permutation.
Qed.

(** ** The gated pages and the identity *)

(** Whatever is posted to [set_role], the identity it leaves is
    consistent: a listed reporter with the role Reporter or a listed
    admin with the role Admin; a reporter's name is never paired with
    the role Admin. *)
Theorem set_role_consistent n r session :
  session_ok session →
  consistent (current_user (set_role n r session)).
Proof.
  intros Hok. apply (set_role_session_ok n r) in Hok.
  unfold consistent, current_user. cbn [name role].
  destruct Hok as [[-> ->] | [(who & -> & Hin & ->) | (who & -> & Hin & ->)]];
    cbn [default].
  - left. split; [done | apply list_elem_of_here].
  - by left.
  - by right.
Qed.

Lemma set_role_consistent_witness :
  consistent (current_user
                (set_role (Some (lit "Alice")) (Some (lit "Admin"))
                          bob_session)).
Proof.
  apply set_role_consistent.
  apply set_role_session_ok, session_ok_empty.
Defined.



(** ** The seed script *)

(** A run of the seed script whose commit goes through adds exactly
    five rows and leaves every row it found as it was; a run whose
    commit fails leaves the table as it was. *)
Theorem create_sample_tickets_spec env db :
  (commit_ok env = true →
     size (create_sample_tickets env db) = (size db + 5)%nat ∧
     ∀ id ticket, db !! id = Some ticket →
                  create_sample_tickets env db !! id = Some ticket) ∧
  (commit_ok env = false → create_sample_tickets env db = db).
Proof.
  split.
  - intros Hc. split; [| intros id ticket; apply create_sample_tickets_lookup].
    unfold create_sample_tickets, commit. rewrite Hc.
    unfold sample_tickets, add_sample. cbn [foldl fst snd].
    rewrite !map_size_insert_None by apply next_id_fresh. lia.
  - intros Hc. unfold create_sample_tickets, commit. by rewrite Hc.
Qed.

Lemma create_sample_tickets_spec_witness :
  size (create_sample_tickets env0 seeded) = 10%nat ∧
  create_sample_tickets {| utcnow := λ _, 0; commit_ok := false |} seeded =
    seeded.
Proof.
  destruct (create_sample_tickets_spec env0 seeded) as [H _].
  destruct (create_sample_tickets_spec
              {| utcnow := λ _, 0; commit_ok := false |} seeded) as [_ H'].
  split.
  - destruct H as [-> _]; reflexivity.
  - apply H'. reflexivity.
Defined.

(** ** More on validation and on keys *)

(** The messages of [validate_ticket_data] on a JSON object with string
    (or absent) title and description: they come in the order title,
    description, priority, at most one per field and none twice; a
    title that is empty or only whitespace is reported as required
    (not as too short), and likewise a blank description. *)
Theorem validate_ticket_data_messages (d : gmap pystr pyval) (t ds : pystr) :
  default (PStr (lit "")) (d !! lit "title") = PStr t →
  default (PStr (lit "")) (d !! lit "description") = PStr ds →
  ∃ errors,
    validate_ticket_data (PDict d) = Ok errors ∧
    sublist errors all_messages ∧
    (title_required ∈ errors ↔ strip t = []) ∧
    (title_length ∈ errors ↔
       strip t ≠ [] ∧ ¬ (3 ≤ len (strip t) ≤ 120)) ∧
    (description_required ∈ errors ↔ strip ds = []) ∧
    (description_length ∈ errors ↔ 1000 < len (strip ds)).
Proof.
  intros Ht Hd.
  unfold validate_ticket_data, get, mbind, result_bind.
  rewrite Ht, Hd. unfold strip_method, truthy.
  rewrite !Z.gtb_ltb.
  destruct (in_strs _ valid_priorities);
    destruct (strip t) as [|c1 t'] eqn:Et;
    destruct (strip ds) as [|c2 ds'] eqn:Eds;
    cbn [length Nat.eqb negb];
    try destruct (Z.ltb_spec (len (c1 :: t')) 3);
    try destruct (Z.ltb_spec 120 (len (c1 :: t')));
    try destruct (Z.ltb_spec (len (c2 :: ds')) 1);
    try destruct (Z.ltb_spec 1000 (len (c2 :: ds')));
    try (exfalso; unfold len in *; cbn [length] in *; lia);
    cbn [negb orb app];
    (eexists; split; [reflexivity |]);
    (split; [unfold all_messages;
             repeat first [apply sublist_skip | apply sublist_cons
                          | apply sublist_nil] |]);
    split_and!;
    match goal with
    | |- ?A ↔ ?P =>
        first
          [ assert A by by_eval;
            assert P
              by first [done | unfold len in *; lia
                       | split; [done | unfold len in *; lia] ];
            tauto
          | assert (¬ A) by by_eval;
            assert (¬ P)
              by first [done | unfold len in *; lia
                       | intros [? ?]; first [done | unfold len in *; lia] ];
            tauto ]
    end.
Qed.

Lemma validate_ticket_data_messages_witness :
  ∃ errors,
    validate_ticket_data
      (sample_data (PStr (lit "   ")) (PStr (lit "d")) (PStr (lit "low")))
      = Ok errors ∧
    title_required ∈ errors ∧ title_length ∉ errors.
Proof.
  destruct (validate_ticket_data_messages
              (<[lit "title" := PStr (lit "   ")]>
               (<[lit "description" := PStr (lit "d")]>
                (<[lit "priority" := PStr (lit "low")]> ∅)))
              (lit "   ") (lit "d"))
    as (errors & Hv & _ & Hr & Hl & _); [reflexivity | reflexivity |].
  exists errors. split; [exact Hv |]. split.
  - apply Hr. reflexivity.
  - rewrite Hl. intros [Hne _]. apply Hne. reflexivity.
Defined.

Lemma keys_below_next_id (db : gmap Z Ticket) id :
  is_Some (db !! id) → id < next_id db.
Proof.
  intros [ticket Hl]. apply elem_of_map_to_list in Hl. unfold next_id.
  assert (∀ (l : list (Z * Ticket)) k v,
            (k, v) ∈ l → k ≤ foldr Z.max 0 (map fst l)) as Hmax.
  { clear. induction l as [|[k' v'] l IH]; intros k v Hin.
    - by apply elem_of_nil in Hin.
    - apply elem_of_cons in Hin as [[= -> ->] | Hin]; simpl.
      + lia.
      + specialize (IH _ _ Hin). lia. }
  apply Hmax in Hl. lia.
Qed.

(** A created ticket gets a key above every key in use: when Create
    answers 201, the key in the response body is at least 1 and greater
    than the key of every ticket that was in the table, and the new
    ticket is what the table now holds under it. *)
Theorem create_ticket_key_above session json env db resp db' :
  create_ticket session json env db = (resp, db') →
  resp.2 = 201 →
  ∃ body,
    resp.1 = JTicket body ∧
    1 ≤ d_id body ∧
    (∀ id, is_Some (db !! id) → id < d_id body) ∧
    (to_dict (d_id body) <$> db' !! d_id body) = Some body.
Proof.
  intros Hc Hcode.
  destruct (create_ticket_201 _ _ _ _ _ _ Hc Hcode)
    as (t & d & p & _ & _ & _ & _ & _ & _ & -> & ->).
  eexists. split; [reflexivity |]. cbn [to_dict d_id].
  split_and!.
  - apply next_id_pos.
  - apply keys_below_next_id.
  - by rewrite lookup_insert_eq.
Qed.

Lemma create_ticket_key_above_witness :
  ∃ body,
    (create_ticket bob_session good_data env0 seeded).1.1 = JTicket body ∧
    1 ≤ d_id body ∧
    (∀ id, is_Some (seeded !! id) → id < d_id body) ∧
    (to_dict (d_id body) <$>
       (create_ticket bob_session good_data env0 seeded).2 !! d_id body) =
      Some body.
Proof.
  apply (create_ticket_key_above bob_session good_data env0 seeded
           (create_ticket bob_session good_data env0 seeded).1);
    reflexivity.
Defined.

(** Create then List: a ticket that Create has just stored is in the
    unfiltered List and in the List filtered by status open, and in no
    List filtered by an assigned admin. *)
Theorem create_then_list session json env db resp db' :
  create_ticket session json env db = (resp, db') →
  resp.2 = 201 →
  ∃ body,
    resp.1 = JTicket body ∧
    body ∈ listed (get_tickets (lit "") (lit "") db') ∧
    body ∈ listed (get_tickets (lit "open") (lit "") db') ∧
    ∀ status_filter admin_filter,
      admin_filter ≠ [] →
      body ∉ listed (get_tickets status_filter admin_filter db').
Proof.
  intros Hc Hcode.
  destruct (create_ticket_201 _ _ _ _ _ _ Hc Hcode)
    as (t & d & p & _ & _ & _ & _ & _ & _ & -> & ->).
  eexists. split; [reflexivity |].
  set (ticket := new_ticket env t d p (name (current_user session))).
  set (db' := <[next_id db := ticket]> db).
  assert (db' !! next_id db = Some ticket) as Hl
    by apply lookup_insert_eq.
  split_and!.
  - by apply get_tickets_all.
  - unfold get_tickets, listed. cbn [fst].
    apply list_elem_of_In, in_map_iff. exists (next_id db, ticket).
    split; [done |]. apply list_elem_of_In.
    rewrite merge_sort_Permutation. apply query_rows.
    split; [by apply elem_of_map_to_list |]. split; [by right | by left].
  - intros sf af Haf Hin. unfold get_tickets, listed in Hin. cbn [fst] in Hin.
    apply list_elem_of_In, in_map_iff in Hin as ([id' ticket'] & Heq & Hin).
    apply list_elem_of_In in Hin. rewrite merge_sort_Permutation in Hin.
    apply query_rows in Hin as [_ [_ [Hp | Hp]]]; [done |].
    injection Heq as _ _ _ _ _ _ Ha _ _. simpl in Hp, Ha. congruence.
Qed.

Lemma create_then_list_witness :
  ∃ body,
    (create_ticket bob_session good_data env0 seeded).1.1 = JTicket body ∧
    body ∈ listed (get_tickets (lit "") (lit "")
                     (create_ticket bob_session good_data env0 seeded).2) ∧
    body ∈ listed (get_tickets (lit "open") (lit "")
                     (create_ticket bob_session good_data env0 seeded).2) ∧
    ∀ status_filter admin_filter,
      admin_filter ≠ [] →
      body ∉ listed (get_tickets status_filter admin_filter
                       (create_ticket bob_session good_data env0 seeded).2).
Proof.
  apply (create_then_list bob_session good_data env0 seeded
           (create_ticket bob_session good_data env0 seeded).1);
    reflexivity.
Defined.

(** On a path under /api/ the error handlers answer with the JSON
    bodies the API handlers use, and leave the session as it was. *)
Lemma api_error_handlers path session :
  startswith path (lit "/api/") = true →
  Pages.not_found path session = (Pages.Json App.not_found, session) ∧
  Pages.internal_error path session =
    (Pages.Json App.internal_error, session) ∧
  Pages.bad_request path session =
    (Pages.Json (JErrors [lit "Bad request"], 400), session).
Proof.
  intros Hp. unfold Pages.not_found, Pages.internal_error, Pages.bad_request.
  by rewrite Hp.
Qed.

(** ** Precedence of the failure modes and odd bodies *)

(** Update-status on bodies that are not JSON objects, for an admin and
    an existing ticket: a non-zero integer, a float that is not zero
    (NaN included) or [true] is answered 500; a string is answered 500
    when it contains 'status' and 400 'Status is required' otherwise; a
    list is answered 500 when one of its elements is the string
    'status' and 400 otherwise. The table is returned as it was. *)
Theorem update_status_other_bodies session ticket_id ticket env db :
  is_admin session = true →
  db !! ticket_id = Some ticket →
  (∀ z, z ≠ 0 →
     update_status session ticket_id (PInt z) env db =
       (App.internal_error, db)) ∧
  (∀ f, PrimFloat.eqb f 0%float = false →
     update_status session ticket_id (PFloat f) env db =
       (App.internal_error, db)) ∧
  update_status session ticket_id (PBool true) env db =
    (App.internal_error, db) ∧
  (∀ s, s ≠ [] →
     update_status session ticket_id (PStr s) env db =
       if contains s (lit "status")
       then (App.internal_error, db)
       else ((JErrors [lit "Status is required"], 400), db)) ∧
  (∀ l, l ≠ [] →
     update_status session ticket_id (PList l) env db =
       if existsb (λ v, eq_str v (lit "status")) l
       then (App.internal_error, db)
       else ((JErrors [lit "Status is required"], 400), db)).
Proof.
  intros Hadm Hl. unfold update_status. rewrite Hadm, Hl. cbn [negb].
  split_and!.
  - intros z Hz. cbn [truthy]. apply Z.eqb_neq in Hz. by rewrite Hz.
  - intros f Hf. cbn [truthy]. by rewrite Hf.
  - done.
  - intros [|c s] Hs; [done |]. cbn [truthy length Nat.eqb negb].
    unfold py_in, mbind, result_bind.
    by destruct (contains (c :: s) (lit "status")).
  - intros [|v l] Hne; [done |]. cbn [truthy length Nat.eqb negb].
    unfold py_in, mbind, result_bind.
    by destruct (existsb _ (v :: l)).
Qed.

Lemma update_status_other_bodies_witness :
  update_status admin2_session 1 (PStr (lit "my status")) env0 seeded =
    (App.internal_error, seeded) ∧
  update_status admin2_session 1 (PList [PStr (lit "closed")]) env0 seeded =
    ((JErrors [lit "Status is required"], 400), seeded) ∧
  update_status admin2_session 1 (PFloat 1.5%float) env0 seeded =
    (App.internal_error, seeded) ∧
  update_status admin2_session 1 (PFloat PrimFloat.nan) env0 seeded =
    (App.internal_error, seeded).
Proof.
  assert (∃ ticket, seeded !! 1 = Some ticket) as [ticket Hl]
    by (eexists; vm_compute; reflexivity).
  destruct (update_status_other_bodies admin2_session 1 ticket env0 seeded
              eq_refl Hl) as (_ & Hf & _ & Hs & Hlist).
  split_and!.
  - rewrite Hs; [reflexivity | discriminate].
  - rewrite Hlist; [reflexivity | discriminate].
  - apply Hf. reflexivity.
  - apply Hf. reflexivity.
Defined.

(** * The routes, from the request *)

Lemma get_or_404_found (ticket_id : N) (db : gmap Z Ticket) ticket :
  (ticket_id < 2 ^ 63)%N →
  db !! Z.of_N ticket_id = Some ticket →
  Routes.get_or_404 ticket_id db = Routes.Found ticket.
Proof.
  intros Hlt Hl. unfold Routes.get_or_404.
  destruct (N.leb_spec (2 ^ 63) ticket_id); [lia |]. by rewrite Hl.
Qed.

Lemma get_or_404_missing (ticket_id : N) (db : gmap Z Ticket) :
  (ticket_id < 2 ^ 63)%N →
  db !! Z.of_N ticket_id = None →
  Routes.get_or_404 ticket_id db = Routes.NotFound.
Proof.
  intros Hlt Hl. unfold Routes.get_or_404.
  destruct (N.leb_spec (2 ^ 63) ticket_id); [lia |]. by rewrite Hl.
Qed.

Lemma get_or_404_overflow (ticket_id : N) (db : gmap Z Ticket) :
  (2 ^ 63 ≤ ticket_id)%N →
  Routes.get_or_404 ticket_id db = Routes.OverflowError.
Proof.
  intros Hge. unfold Routes.get_or_404.
  destruct (N.leb_spec (2 ^ 63) ticket_id); [done | lia].
Qed.

(** ** Create *)

(** C10, for a body that is a JSON document: a reporter's POST whose
    document is falsy (null, false, 0, the empty string, the empty
    list or the empty object) is answered 400 with the error list
    ['No data provided'], before field validation runs, and the table
    is left as it was. *)
Theorem create_ticket_falsy_document session json env db :
  is_reporter session = true →
  truthy json = false →
  Routes.create_ticket session (Routes.Parsed json) env db =
    (Routes.Api (JErrors [lit "No data provided"], 400), db).
Proof.
  intros Hrep Hfalsy. unfold Routes.create_ticket, Routes.api.
  rewrite Hrep. cbn [negb Routes.get_json].
  by rewrite (create_ticket_no_data session json env db Hrep Hfalsy).
Qed.

Lemma create_ticket_falsy_document_witness :
  Routes.create_ticket bob_session (Routes.Parsed (PDict ∅)) env0 seeded =
    (Routes.Api (JErrors [lit "No data provided"], 400), seeded) ∧
  Routes.create_ticket bob_session (Routes.Parsed (PList [])) env0 seeded =
    (Routes.Api (JErrors [lit "No data provided"], 400), seeded).
Proof.
  split; apply create_ticket_falsy_document; reflexivity.
Defined.

(** A reporter's POST that carries no JSON data never reaches the test
    for missing data: without a JSON Content-Type the answer is
    Werkzeug's 415 page, with one and an empty body it is the 400
    handler's ['Bad request']. Neither is ['No data provided']. The
    table is left as it was. *)
Lemma create_ticket_without_json :
  is_reporter bob_session = true ∧
  Routes.create_ticket bob_session Routes.NotJson env0 seeded =
    (Routes.Default 415, seeded) ∧
  Routes.create_ticket bob_session Routes.Malformed env0 seeded =
    (Routes.Api (JErrors [lit "Bad request"], 400), seeded) ∧
  Routes.create_ticket bob_session Routes.NotJson env0 seeded ≠
    (Routes.Api (JErrors [lit "No data provided"], 400), seeded) ∧
  Routes.create_ticket bob_session Routes.Malformed env0 seeded ≠
    (Routes.Api (JErrors [lit "No data provided"], 400), seeded).
Proof.
  split_and!; [reflexivity | reflexivity | reflexivity | |];
    vm_compute; discriminate.
Qed.

(** ** Update status *)

(** C6, for a body that is a JSON document: an admin's Update-status
    on an existing ticket is answered 400, and the table is returned as
    it was (so status and [updated_at] are unchanged), when the
    document is falsy or an object and has no status field, and when
    its status field is not one of open, in_progress, closed; when the
    field is one of them (and the commit goes through) the ticket gets
    that status and a fresh [updated_at], whatever its status was
    before. *)
Theorem update_status_documents db session (ticket_id : N) ticket json env :
  is_admin session = true →
  (ticket_id < 2 ^ 63)%N →
  db !! Z.of_N ticket_id = Some ticket →
  (truthy json = false ∨ (∃ d, json = PDict d) →
   field json (lit "status") = None →
     Routes.update_status session ticket_id (Routes.Parsed json) env db =
       (Routes.Api (JErrors [lit "Status is required"], 400), db)) ∧
  (∀ v, field json (lit "status") = Some v →
        (∀ s, s ∈ valid_statuses → v ≠ PStr s) →
     Routes.update_status session ticket_id (Routes.Parsed json) env db =
       (Routes.Api (JErrors [status_invalid], 400), db)) ∧
  (∀ s, field json (lit "status") = Some (PStr s) →
        s ∈ valid_statuses →
        commit_ok env = true →
     let ticket' := with_status ticket s (utcnow env 0%nat) in
     Routes.update_status session ticket_id (Routes.Parsed json) env db =
       (Routes.Api (JTicket (to_dict (Z.of_N ticket_id) ticket'), 200),
        <[Z.of_N ticket_id := ticket']> db)).
Proof.
  intros Hadm Hlt Hl.
  destruct (update_status_spec db session (Z.of_N ticket_id) ticket json env
              Hadm Hl) as (Hreq & Hinv & Hacc).
  unfold Routes.update_status, Routes.api.
  rewrite Hadm, (get_or_404_found ticket_id db ticket Hlt Hl).
  cbn [negb Routes.get_json]. split_and!.
  - intros Hshape Hnone. by rewrite (Hreq Hshape Hnone).
  - intros v Hv Hout. by rewrite (Hinv v Hv Hout).
  - intros s Hv Hin Hc. cbn zeta. by rewrite (Hacc s Hv Hin Hc).
Qed.

Lemma update_status_documents_witness :
  Routes.update_status admin2_session 5 (Routes.Parsed (PDict ∅)) env0 seeded =
    (Routes.Api (JErrors [lit "Status is required"], 400), seeded) ∧
  Routes.update_status admin2_session 5
      (Routes.Parsed (status_body (PStr (lit "done")))) env0 seeded =
    (Routes.Api (JErrors [status_invalid], 400), seeded) ∧
  (status <$> seeded !! 5) = Some (lit "closed") ∧
  (status <$> (Routes.update_status admin2_session 5
                 (Routes.Parsed (status_body (PStr (lit "open"))))
                 env0 seeded).2 !! 5) = Some (lit "open").
Proof.
  assert (∃ ticket, seeded !! Z.of_N 5 = Some ticket) as [ticket Hl]
    by (eexists; vm_compute; reflexivity).
  split_and!.
  - destruct (update_status_documents seeded admin2_session 5 ticket
                (PDict ∅) env0 eq_refl eq_refl Hl) as (H & _ & _).
    apply H; [left |]; reflexivity.
  - destruct (update_status_documents seeded admin2_session 5 ticket
                (status_body (PStr (lit "done"))) env0 eq_refl eq_refl Hl)
      as (_ & H & _).
    apply (H (PStr (lit "done"))); [reflexivity |].
    intros s Hin [= <-]. revert Hin. by_eval.
  - reflexivity.
  - destruct (update_status_documents seeded admin2_session 5 ticket
                (status_body (PStr (lit "open"))) env0 eq_refl eq_refl Hl)
      as (_ & _ & H).
    rewrite (H (lit "open"));
      [| reflexivity | apply list_elem_of_here | reflexivity].
    cbn [snd]. by rewrite lookup_insert_eq.
Defined.

(** ** Delete *)

(** C9, for ids below 2^63: Delete does not look at the session. On an
    id that is not in the table the answer is 404 with body
    {'message': 'Resource not found'} and the table is unchanged. On an
    id that is in the table (and when the commit goes through) the
    answer is 200, the row is removed, and no List response computed
    afterwards, whatever its filters, contains a ticket with that id;
    before the deletion the unfiltered List did contain it. *)
Theorem delete_ticket_route_spec session (ticket_id : N) env db :
  (ticket_id < 2 ^ 63)%N →
  (db !! Z.of_N ticket_id = None →
     Routes.delete_ticket session ticket_id env db =
       (Routes.Api (JMessage (lit "Resource not found"), 404), db)) ∧
  (∀ ticket,
     db !! Z.of_N ticket_id = Some ticket →
     commit_ok env = true →
     Routes.delete_ticket session ticket_id env db =
       (Routes.Api (JMessage (lit "Ticket deleted successfully"), 200),
        delete (Z.of_N ticket_id) db) ∧
     to_dict (Z.of_N ticket_id) ticket ∈
       listed (get_tickets (lit "") (lit "") db) ∧
     ∀ status_filter admin_filter d,
       d ∈ listed (get_tickets status_filter admin_filter
                     (delete (Z.of_N ticket_id) db)) →
       d_id d ≠ Z.of_N ticket_id).
Proof.
  intros Hlt.
  destruct (delete_ticket_spec session (Z.of_N ticket_id) env db)
    as [Hmiss Hdel].
  unfold Routes.delete_ticket, Routes.api. split.
  - intros Hl. by rewrite (get_or_404_missing ticket_id db Hlt Hl).
  - intros ticket Hl Hc.
    destruct (Hdel ticket Hl Hc) as (Heq & Hbefore & Hafter).
    rewrite (get_or_404_found ticket_id db ticket Hlt Hl), Heq.
    done.
Qed.

Lemma delete_ticket_route_spec_witness :
  Routes.delete_ticket bob_session 9 env0 seeded =
    (Routes.Api (JMessage (lit "Resource not found"), 404), seeded) ∧
  (Routes.delete_ticket bob_session 3 env0 seeded).1 =
    Routes.Api (JMessage (lit "Ticket deleted successfully"), 200) ∧
  (Routes.delete_ticket admin2_session 3 env0 seeded).1 =
    Routes.Api (JMessage (lit "Ticket deleted successfully"), 200) ∧
  ∀ d, d ∈ listed (get_tickets (lit "") (lit "")
                     (Routes.delete_ticket bob_session 3 env0 seeded).2) →
       d_id d ≠ 3.
Proof.
  assert (∃ ticket, seeded !! Z.of_N 3 = Some ticket) as [ticket Hl]
    by (eexists; vm_compute; reflexivity).
  split_and!.
  - destruct (delete_ticket_route_spec bob_session 9 env0 seeded eq_refl)
      as [H _].
    apply H. reflexivity.
  - destruct (delete_ticket_route_spec bob_session 3 env0 seeded eq_refl)
      as [_ H].
    destruct (H ticket Hl eq_refl) as (-> & _ & _). reflexivity.
  - destruct (delete_ticket_route_spec admin2_session 3 env0 seeded eq_refl)
      as [_ H].
    destruct (H ticket Hl eq_refl) as (-> & _ & _). reflexivity.
  - destruct (delete_ticket_route_spec bob_session 3 env0 seeded eq_refl)
      as [_ H].
    destruct (H ticket Hl eq_refl) as (-> & _ & Hafter).
    intros d. apply Hafter.
Defined.

(** Deleting the id 2^63, which no table holds: the lookup raises
    before the [try] block and the answer is the 500 handler's, not
    404. *)
Lemma delete_ticket_large_id :
  seeded !! Z.of_N (2 ^ 63) = None ∧
  Routes.delete_ticket bob_session (2 ^ 63) env0 seeded =
    (Routes.Api (JErrors [lit "Internal server error"], 500), seeded) ∧
  Routes.delete_ticket bob_session (2 ^ 63) env0 seeded ≠
    (Routes.Api (JMessage (lit "Resource not found"), 404), seeded).
Proof.
  split_and!; [reflexivity | reflexivity |]. vm_compute. discriminate.
Qed.

(** ** All routes *)



(** The lookup comes before the body. For an admin, a ticket id below
    2^63 that is not in the table is answered 404 by Self-assign, by
    Update-status whatever the request carries as a body (no JSON
    included) and by Delete; an id of 2^63 or more makes the lookup
    raise and is answered by the 500 handler in all three. The table
    is left as it was. *)
Theorem missing_ticket_route session (ticket_id : N) body env db :
  is_admin session = true →
  ((ticket_id < 2 ^ 63)%N →
   db !! Z.of_N ticket_id = None →
     Routes.assign_self session ticket_id env db =
       (Routes.Api App.not_found, db) ∧
     Routes.update_status session ticket_id body env db =
       (Routes.Api App.not_found, db) ∧
     Routes.delete_ticket session ticket_id env db =
       (Routes.Api App.not_found, db)) ∧
  ((2 ^ 63 ≤ ticket_id)%N →
     Routes.assign_self session ticket_id env db =
       (Routes.Api App.internal_error, db) ∧
     Routes.update_status session ticket_id body env db =
       (Routes.Api App.internal_error, db) ∧
     Routes.delete_ticket session ticket_id env db =
       (Routes.Api App.internal_error, db)).
Proof.
  intros Hadm.
  unfold Routes.assign_self, Routes.update_status, Routes.delete_ticket.
  rewrite Hadm. cbn [negb]. split.
  - intros Hlt Hl. by rewrite (get_or_404_missing ticket_id db Hlt Hl).
  - intros Hge. by rewrite (get_or_404_overflow ticket_id db Hge).
Qed.

Lemma missing_ticket_route_witness :
  Routes.update_status admin2_session 7 Routes.NotJson env0 seeded =
    (Routes.Api (JMessage (lit "Resource not found"), 404), seeded) ∧
  Routes.assign_self admin2_session (2 ^ 63) env0 seeded =
    (Routes.Api (JErrors [lit "Internal server error"], 500), seeded).
Proof.
  split.
  - destruct (missing_ticket_route admin2_session 7 Routes.NotJson env0
                seeded eq_refl) as [H _].
    destruct H as (_ & H & _); [reflexivity | reflexivity |]. exact H.
  - destruct (missing_ticket_route admin2_session (2 ^ 63) Routes.NotJson
                env0 seeded eq_refl) as [_ H].
    destruct H as (H & _); [vm_compute; discriminate |]. exact H.
Defined.
